(** * Apache Ranger Terraform provider: policy translation and reconciliation

    A shallow embedding of the policy resource (the provider file that holds
    [convertModelToPolicy], [convertPolicyToModel] and the CRUD methods) and
    of the data source's name lookup ([ranger_policy_data_source.go]), with
    the properties the specification states about them.

    Conventions of the embedding:
    - a Go slice is [option (list A)]: [None] is the nil slice, [Some l] a
      non-nil slice; [len] and [range] see both through [elems];
    - a Go map is a [gmap] (a nil map and an empty map are both [∅]); a
      [range] over a map takes its iteration order as an argument, since Go
      leaves that order unspecified;
    - a framework value ([types.String], [types.Bool], [types.Int64]) is
      null, unknown or known, read through [ValueString] and the like;
    - an [interface{}] value carries its dynamic type ([any]);
    - [diag.Diagnostics] is a list of diagnostics with the framework's
      duplicate-free [Append];
    - what the Go standard library and the plugin framework do (HTTP,
      JSON, [fmt.Sscanf], [State.Set]) is a parameter of the reconciler. *)

From Stdlib Require Import Ascii.
From stdpp Require Import base strings list gmap fin_maps pretty.

Set Warnings "-register-all".
Local Open Scope Z_scope.

(** ** Go slices *)

Definition slice (A : Type) : Type := option (list A).

Definition elems {A} (s : slice A) : list A :=
  match s with
  | Some l => l
  | None => []
  end.

Definition len {A} (s : slice A) : nat := length (elems s).

(** [make([]T, 0, n)]: an empty slice that is not nil. *)
Definition make {A} : slice A := Some [].

(** [append(s, x)]: never nil. *)
Definition append {A} (s : slice A) (x : A) : slice A := Some (elems s ++ [x]).

Definition is_nil {A} (s : slice A) : bool :=
  match s with
  | None => true
  | Some _ => false
  end.

(** The order in which one [range] statement visits a map. *)
Definition MapRange (A : Type) : Type := gmap string A → list (string * A).

(** Go visits every entry exactly once, in an order of its choosing. *)
Definition range_ok {A} (rng : MapRange A) : Prop :=
  ∀ m, rng m ≡ₚ map_to_list m.

(** ** Framework values ([types] package) *)

Inductive TString := StringNull | StringUnknown | StringValue (s : string).
Inductive TBool := BoolNull | BoolUnknown | BoolValue (b : bool).
Inductive TInt64 := Int64Null | Int64Unknown | Int64Value (i : Z).

Definition ValueString (v : TString) : string :=
  match v with
  | StringValue s => s
  | _ => ""
  end.

Definition IsNull (v : TString) : bool :=
  match v with
  | StringNull => true
  | _ => false
  end.

Definition ValueBool (v : TBool) : bool :=
  match v with
  | BoolValue b => b
  | _ => false
  end.

Definition ValueInt64 (v : TInt64) : Z :=
  match v with
  | Int64Value i => i
  | _ => 0
  end.

Global Instance TString_eq_dec : EqDecision TString.
Proof. solve_decision. Defined.
Global Instance TBool_eq_dec : EqDecision TBool.
Proof. solve_decision. Defined.
Global Instance TInt64_eq_dec : EqDecision TInt64.
Proof. solve_decision. Defined.

(** ** Diagnostics ([diag] package) *)

Inductive Severity := SeverityError | SeverityWarning.

Record Diagnostic := {
  Severity_ : Severity;
  Summary : string;
  Detail : string;
}.

Global Instance Severity_eq_dec : EqDecision Severity.
Proof. solve_decision. Defined.
Global Instance Diagnostic_eq_dec : EqDecision Diagnostic.
Proof. solve_decision. Defined.

Definition Diagnostics : Type := list Diagnostic.

Definition NewErrorDiagnostic (summary detail : string) : Diagnostic :=
  {| Severity_ := SeverityError; Summary := summary; Detail := detail |}.

Definition is_error (d : Diagnostic) : bool :=
  match Severity_ d with
  | SeverityError => true
  | SeverityWarning => false
  end.

Definition HasError (diags : Diagnostics) : bool := existsb is_error diags.

(** [Append] skips a diagnostic the collection already contains. *)
Definition Append (diags in_ : Diagnostics) : Diagnostics :=
  foldl (λ acc d, if decide (d ∈ acc) then acc else acc ++ [d]) diags in_.

Definition AddError (diags : Diagnostics) (summary detail : string) : Diagnostics :=
  Append diags [NewErrorDiagnostic summary detail].

(** ** Dynamically typed values ([interface{}]) *)

(** [any_strings] is a [[]string], the type [convertPolicyItemModel] stores;
    [any_slice] is a [[]interface{}], the type the JSON decoder stores for an
    array.  A JSON number is a [float64]; only its not being a string
    matters here, so it is kept as an integer payload. *)
Inductive any : Type :=
  | any_nil
  | any_bool (b : bool)
  | any_float64 (x : Z)
  | any_string (s : string)
  | any_strings (l : slice string)
  | any_slice (l : slice any)
  | any_map (m : gmap string any).

(** ** The declarative model *)

Module Tf.

Record RangerPolicyResourcesModel := {
  Type_ : TString;
  Values : slice TString;
  IsExclude : TBool;
  IsRecursive : TBool;
}.

Record RangerPolicyItemModel := {
  Users : slice TString;
  Groups : slice TString;
  Roles : slice TString;
  Permissions : slice TString;
  DelegateAdmin : TBool;
  Conditions : gmap string (slice TString);
}.

Record RangerPolicyResourceModel := {
  ID : TString;
  Name : TString;
  Service : TString;
  Description : TString;
  IsEnabled : TBool;
  IsAuditEnabled : TBool;
  Resources : slice RangerPolicyResourcesModel;
  PolicyItems : slice RangerPolicyItemModel;
  DenyItems : slice RangerPolicyItemModel;
  PolicyType : TInt64;
}.

(** [plan.ID = v] *)
Definition set_ID (v : TString) (m : RangerPolicyResourceModel) : RangerPolicyResourceModel :=
  {| ID := v; Name := Name m; Service := Service m; Description := Description m;
     IsEnabled := IsEnabled m; IsAuditEnabled := IsAuditEnabled m;
     Resources := Resources m; PolicyItems := PolicyItems m;
     DenyItems := DenyItems m; PolicyType := PolicyType m |}.

End Tf.

(** ** The wire model *)

Module Wire.

Record PolicyResources := {
  Values : slice string;
  IsExclude : bool;
  IsRecursive : bool;
}.

Record Access := {
  Type_ : string;
  IsAllowed : bool;
}.

Record PolicyItem := {
  Users : slice string;
  Groups : slice string;
  Roles : slice string;
  Accesses : slice Access;
  DelegateAdmin : bool;
  Conditions : slice (gmap string any);
}.

Record Policy := {
  ID : Z;
  Name : string;
  Service : string;
  Description : string;
  IsEnabled : bool;
  IsAuditEnabled : bool;
  Resources : gmap string PolicyResources;
  PolicyItems : slice PolicyItem;
  DenyPolicyItems : slice PolicyItem;
  PolicyType : Z;
}.

(** [Policy{}] *)
Definition zero : Policy :=
  {| ID := 0; Name := ""; Service := ""; Description := "";
     IsEnabled := false; IsAuditEnabled := false; Resources := ∅;
     PolicyItems := None; DenyPolicyItems := None; PolicyType := 0 |}.

(** [policy.ID = id] *)
Definition set_ID (id : Z) (p : Policy) : Policy :=
  {| ID := id; Name := Name p; Service := Service p; Description := Description p;
     IsEnabled := IsEnabled p; IsAuditEnabled := IsAuditEnabled p;
     Resources := Resources p; PolicyItems := PolicyItems p;
     DenyPolicyItems := DenyPolicyItems p; PolicyType := PolicyType p |}.

End Wire.

(** ** Model translator *)

(** [for _, v := range vs { out = append(out, f v) }] starting from
    [make([]T, 0, len(vs))]. *)
Definition collect {A B} (f : A → B) (vs : slice A) : slice B :=
  foldl (λ out v, append out (f v)) make (elems vs).

(** [convertPolicyItemModel]; [rng] is the order of the [range] over the
    declared conditions. *)
Definition convertPolicyItemModel (rng : MapRange (slice TString))
    (itemModel : Tf.RangerPolicyItemModel) : Wire.PolicyItem * Diagnostics :=
  let diags : Diagnostics := [] in
  let policyItem :=
    {| Wire.DelegateAdmin := ValueBool (Tf.DelegateAdmin itemModel);
       Wire.Users :=
         if decide (0 < len (Tf.Users itemModel))%nat
         then collect ValueString (Tf.Users itemModel) else None;
       Wire.Groups :=
         if decide (0 < len (Tf.Groups itemModel))%nat
         then collect ValueString (Tf.Groups itemModel) else None;
       Wire.Roles :=
         if decide (0 < len (Tf.Roles itemModel))%nat
         then collect ValueString (Tf.Roles itemModel) else None;
       Wire.Accesses :=
         if decide (0 < len (Tf.Permissions itemModel))%nat
         then collect (λ perm, {| Wire.Type_ := ValueString perm; Wire.IsAllowed := true |})
                      (Tf.Permissions itemModel)
         else None;
       Wire.Conditions :=
         if decide (0 < size (Tf.Conditions itemModel))%nat
         then foldl (λ conditions '(condType, condValues),
                       let values := collect ValueString condValues in
                       let condition : gmap string any :=
                         <["values" := any_strings values]>
                           (<["type" := any_string condType]> ∅) in
                       append conditions condition)
                    make (rng (Tf.Conditions itemModel))
         else None |} in
  (policyItem, diags).

(** The loop over rule items shared by the allow and the deny list:
    [policyItem, itemDiags := conv(item); diags.Append(itemDiags...);
     items = append(items, policyItem)].  [conv] receives the number of the
    item within the call. *)
Definition convertItems {A B} (conv : nat → A → B * Diagnostics) (base : nat)
    (items : list A) (diags : Diagnostics) : slice B * Diagnostics :=
  foldl (λ '(out, diags) item,
           let '(policyItem, itemDiags) := conv (base + len out)%nat item in
           (append out policyItem, Append diags itemDiags))
        (make, diags) items.

(** [convertModelToPolicy]; [rng n] is the order of the [range] over the
    conditions of the [n]-th rule item converted (allow items first). *)
Definition convertModelToPolicy (rng : nat → MapRange (slice TString))
    (model : Tf.RangerPolicyResourceModel) : Wire.Policy * Diagnostics :=
  let diags : Diagnostics := [] in
  let description :=
    if negb (IsNull (Tf.Description model))
    then ValueString (Tf.Description model) else "" in
  let resources :=
    foldl (λ (resources : gmap string Wire.PolicyResources) res,
             let resType := ValueString (Tf.Type_ res) in
             let valuesStrings := collect ValueString (Tf.Values res) in
             <[resType := {| Wire.Values := valuesStrings;
                             Wire.IsExclude := ValueBool (Tf.IsExclude res);
                             Wire.IsRecursive := ValueBool (Tf.IsRecursive res) |}]>
               resources)
          ∅ (elems (Tf.Resources model)) in
  let '(policyItems, diags) :=
    if decide (0 < len (Tf.PolicyItems model))%nat
    then convertItems (λ n, convertPolicyItemModel (rng n)) 0
           (elems (Tf.PolicyItems model)) diags
    else (None, diags) in
  let '(denyPolicyItems, diags) :=
    if decide (0 < len (Tf.DenyItems model))%nat
    then convertItems (λ n, convertPolicyItemModel (rng n)) (len (Tf.PolicyItems model))
           (elems (Tf.DenyItems model)) diags
    else (None, diags) in
  ({| Wire.ID := 0;
      Wire.Name := ValueString (Tf.Name model);
      Wire.Service := ValueString (Tf.Service model);
      Wire.Description := description;
      Wire.IsEnabled := ValueBool (Tf.IsEnabled model);
      Wire.IsAuditEnabled := ValueBool (Tf.IsAuditEnabled model);
      Wire.Resources := resources;
      Wire.PolicyItems := policyItems;
      Wire.DenyPolicyItems := denyPolicyItems;
      Wire.PolicyType := ValueInt64 (Tf.PolicyType model) |}, diags).

(** [convertPolicyItem] *)
Definition convertPolicyItem (item : Wire.PolicyItem)
    : Tf.RangerPolicyItemModel * Diagnostics :=
  let diags : Diagnostics := [] in
  let policyItemModel :=
    {| Tf.DelegateAdmin := BoolValue (Wire.DelegateAdmin item);
       Tf.Users := collect StringValue (Wire.Users item);
       Tf.Groups := collect StringValue (Wire.Groups item);
       Tf.Roles := collect StringValue (Wire.Roles item);
       Tf.Permissions :=
         foldl (λ permissions access,
                  if Wire.IsAllowed access
                  then append permissions (StringValue (Wire.Type_ access))
                  else permissions)
               make (elems (Wire.Accesses item));
       Tf.Conditions :=
         foldl (λ (conditions : gmap string (slice TString)) (condition : gmap string any),
                  match condition !! "type" with
                  | Some (any_string condType) =>
                      match condition !! "values" with
                      | Some (any_slice condValues) =>
                          let values :=
                            foldl (λ values val,
                                     match val with
                                     | any_string strVal => append values (StringValue strVal)
                                     | _ => values
                                     end)
                                  make (elems condValues) in
                          <[condType := values]> conditions
                      | _ => conditions
                      end
                  | _ => conditions
                  end)
               ∅ (elems (Wire.Conditions item)) |} in
  (policyItemModel, diags).

(** [convertPolicyToModel]; [rng] is the order of the [range] over the
    [resources] map. *)
Definition convertPolicyToModel (rng : MapRange Wire.PolicyResources)
    (policy : Wire.Policy) : Tf.RangerPolicyResourceModel * Diagnostics :=
  let diags : Diagnostics := [] in
  let resources :=
    foldl (λ resources '(resType, resValue),
             let values := collect StringValue (Wire.Values resValue) in
             append resources
               {| Tf.Type_ := StringValue resType;
                  Tf.Values := values;
                  Tf.IsExclude := BoolValue (Wire.IsExclude resValue);
                  Tf.IsRecursive := BoolValue (Wire.IsRecursive resValue) |})
          make (rng (Wire.Resources policy)) in
  let '(policyItems, diags) :=
    convertItems (λ _, convertPolicyItem) 0 (elems (Wire.PolicyItems policy)) diags in
  let '(denyItems, diags) :=
    convertItems (λ _, convertPolicyItem) 0 (elems (Wire.DenyPolicyItems policy)) diags in
  ({| Tf.ID := StringValue (pretty (Wire.ID policy));
      Tf.Name := StringValue (Wire.Name policy);
      Tf.Service := StringValue (Wire.Service policy);
      Tf.Description := StringValue (Wire.Description policy);
      Tf.IsEnabled := BoolValue (Wire.IsEnabled policy);
      Tf.IsAuditEnabled := BoolValue (Wire.IsAuditEnabled policy);
      Tf.PolicyType := Int64Value (Wire.PolicyType policy);
      Tf.Resources := resources;
      Tf.PolicyItems := policyItems;
      Tf.DenyItems := denyItems |}, diags).

(** ** HTTP and the platform underneath the provider *)

(** The text of a Go [error], as [%s] prints it. *)
Definition error : Type := string.

Record Request := {
  Method : string;
  URL : string;
  RawQuery : string;
  Header : gmap string string;
  Body : option string;
}.

(** [request.Header.Set(key, value)] *)
Definition Header_Set (key value : string) (request : Request) : Request :=
  {| Method := Method request; URL := URL request; RawQuery := RawQuery request;
     Header := <[key := value]> (Header request); Body := Body request |}.

(** [request.URL.RawQuery = q] *)
Definition set_RawQuery (q : string) (request : Request) : Request :=
  {| Method := Method request; URL := URL request; RawQuery := q;
     Header := Header request; Body := Body request |}.

(** A response is its status code and what [json.NewDecoder(response.Body)]
    yields when asked for a policy, or for a list of policies. *)
Record Response := {
  StatusCode : Z;
  DecodePolicy : error + Wire.Policy;
  DecodePolicies : error + slice Wire.Policy;
}.

Definition StatusOK : Z := 200.
Definition StatusCreated : Z := 201.
Definition StatusNotFound : Z := 404.

Record RangerClient := {
  Endpoint : string;
  Username : string;
  Password : string;
  (** [Client.Do] *)
  Do : Request → error + Response;
  AuthHeader : string;
}.

(** The Go standard library and the plugin framework, as far as the
    provider calls them. *)
Record Platform := {
  (** the error of [http.NewRequest(method, url, body)], if any *)
  http_NewRequest_err : string → string → option error;
  json_Marshal : Wire.Policy → error + string;
  (** [fmt.Sscanf(s, "%d", &i)]: the value left in [i] and the error *)
  fmt_Sscanf_d : string → Z * option error;
  url_PathEscape : string → string;
  (** [url.Values.Encode] of the single pair [key=value] *)
  url_Values_Encode : string → string → string;
  (** the diagnostics of [State.Set(ctx, model)] *)
  State_Set_diags : Tf.RangerPolicyResourceModel → Diagnostics;
  (** the order of each [range] over a conditions map and over a
      resources map *)
  conditions_order : nat → MapRange (slice TString);
  resources_order : MapRange Wire.PolicyResources;
}.

(** What [Plan.Get(ctx, &model)] and [State.Get(ctx, &model)] deliver: the
    decoded model and the diagnostics of decoding it. *)
Record Data := {
  Get_value : Tf.RangerPolicyResourceModel;
  Get_diags : Diagnostics;
}.

Record CreateRequest := { Create_Plan : Data }.
Record ReadRequest := { Read_State : Data }.
Record UpdateRequest := { Update_Plan : Data }.

(** [resource.CreateResponse], [ReadResponse], [UpdateResponse]: the state
    handed back ([None] once the resource is removed) and the diagnostics. *)
Record ResourceResponse := {
  State : option Tf.RangerPolicyResourceModel;
  Diagnostics_ : Diagnostics;
}.

Definition resp_Append (diags : Diagnostics) (resp : ResourceResponse) : ResourceResponse :=
  {| State := State resp; Diagnostics_ := Append (Diagnostics_ resp) diags |}.

Definition resp_AddError (summary detail : string) (resp : ResourceResponse) : ResourceResponse :=
  {| State := State resp; Diagnostics_ := AddError (Diagnostics_ resp) summary detail |}.

(** [resp.State.RemoveResource(ctx)] *)
Definition RemoveResource (resp : ResourceResponse) : ResourceResponse :=
  {| State := None; Diagnostics_ := Diagnostics_ resp |}.

Section Reconciler.

Context (pf : Platform) (client : RangerClient).

(** [http.NewRequest] *)
Definition http_NewRequest (method url : string) (body : option string) : error + Request :=
  match http_NewRequest_err pf method url with
  | Some err => inl err
  | None => inr {| Method := method; URL := url; RawQuery := ""; Header := ∅; Body := body |}
  end.

(** [resp.State.Set(ctx, model)]: the state is replaced unless setting it
    reports an error. *)
Definition State_Set (model : Tf.RangerPolicyResourceModel) (resp : ResourceResponse)
    : ResourceResponse * Diagnostics :=
  let diags := State_Set_diags pf model in
  if HasError diags then (resp, diags)
  else ({| State := Some model; Diagnostics_ := Diagnostics_ resp |}, diags).

(** [parseInt64] *)
Definition parseInt64 (s : string) : Z * option error := fmt_Sscanf_d pf s.

(** [Create]: the response and the requests handed to [client.Do]. *)
Definition Create (req : CreateRequest) (resp : ResourceResponse)
    : ResourceResponse * list Request :=
  let plan := Get_value (Create_Plan req) in
  let diags := Get_diags (Create_Plan req) in
  let resp := resp_Append diags resp in
  if HasError (Diagnostics_ resp) then (resp, []) else
  let '(policy, diags) := convertModelToPolicy (conditions_order pf) plan in
  let resp := resp_Append diags resp in
  if HasError (Diagnostics_ resp) then (resp, []) else
  match json_Marshal pf policy with
  | inl err =>
      (resp_AddError "Error Creating Ranger Policy"
         ("Could not marshal policy JSON: " +:+ err) resp, [])
  | inr policyJSON =>
      let url := Endpoint client +:+ "/service/public/v2/api/policy" in
      match http_NewRequest "POST" url (Some policyJSON) with
      | inl err =>
          (resp_AddError "Error Creating Ranger Policy"
             ("Could not create request: " +:+ err) resp, [])
      | inr request =>
          let request := Header_Set "Authorization" (AuthHeader client) request in
          let request := Header_Set "Content-Type" "application/json" request in
          let request := Header_Set "Accept" "application/json" request in
          match Do client request with
          | inl err =>
              (resp_AddError "Error Creating Ranger Policy"
                 ("Could not execute API request: " +:+ err) resp, [request])
          | inr response =>
              if bool_decide (StatusCode response ≠ StatusOK)
                 && bool_decide (StatusCode response ≠ StatusCreated)
              then
                (resp_AddError "Error Creating Ranger Policy"
                   ("API returned unexpected status code: "
                      +:+ pretty (StatusCode response)) resp, [request])
              else
                match DecodePolicy response with
                | inl err =>
                    (resp_AddError "Error Creating Ranger Policy"
                       ("Could not decode API response: " +:+ err) resp, [request])
                | inr createdPolicy =>
                    let plan :=
                      Tf.set_ID (StringValue (pretty (Wire.ID createdPolicy))) plan in
                    let '(resp, diags) := State_Set plan resp in
                    let resp := resp_Append diags resp in
                    (resp, [request])
                end
          end
      end
  end.

(** [Read] *)
Definition Read (req : ReadRequest) (resp : ResourceResponse)
    : ResourceResponse * list Request :=
  let state := Get_value (Read_State req) in
  let diags := Get_diags (Read_State req) in
  let resp := resp_Append diags resp in
  if HasError (Diagnostics_ resp) then (resp, []) else
  if IsNull (Tf.ID state) then (RemoveResource resp, []) else
  let url := Endpoint client +:+ "/service/public/v2/api/policy/"
               +:+ ValueString (Tf.ID state) in
  match http_NewRequest "GET" url None with
  | inl err =>
      (resp_AddError "Error Reading Ranger Policy"
         ("Could not create request: " +:+ err) resp, [])
  | inr request =>
      let request := Header_Set "Authorization" (AuthHeader client) request in
      let request := Header_Set "Accept" "application/json" request in
      match Do client request with
      | inl err =>
          (resp_AddError "Error Reading Ranger Policy"
             ("Could not execute API request: " +:+ err) resp, [request])
      | inr response =>
          if bool_decide (StatusCode response = StatusNotFound)
          then (RemoveResource resp, [request])
          else if bool_decide (StatusCode response ≠ StatusOK)
          then
            (resp_AddError "Error Reading Ranger Policy"
               ("API returned unexpected status code: "
                  +:+ pretty (StatusCode response)) resp, [request])
          else
            match DecodePolicy response with
            | inl err =>
                (resp_AddError "Error Reading Ranger Policy"
                   ("Could not decode API response: " +:+ err) resp, [request])
            | inr policy =>
                let '(model, diags) := convertPolicyToModel (resources_order pf) policy in
                let resp := resp_Append diags resp in
                if HasError (Diagnostics_ resp) then (resp, [request]) else
                let '(resp, diags) := State_Set model resp in
                let resp := resp_Append diags resp in
                (resp, [request])
            end
      end
  end.

(** [Update] *)
Definition Update (req : UpdateRequest) (resp : ResourceResponse)
    : ResourceResponse * list Request :=
  let plan := Get_value (Update_Plan req) in
  let diags := Get_diags (Update_Plan req) in
  let resp := resp_Append diags resp in
  if HasError (Diagnostics_ resp) then (resp, []) else
  let '(policy, diags) := convertModelToPolicy (conditions_order pf) plan in
  let resp := resp_Append diags resp in
  if HasError (Diagnostics_ resp) then (resp, []) else
  let policyID := ValueString (Tf.ID plan) in
  match parseInt64 policyID with
  | (_, Some err) =>
      (resp_AddError "Error Updating Ranger Policy"
         ("Could not parse policy ID: " +:+ err) resp, [])
  | (id, None) =>
      let policy := Wire.set_ID id policy in
      match json_Marshal pf policy with
      | inl err =>
          (resp_AddError "Error Updating Ranger Policy"
             ("Could not marshal policy JSON: " +:+ err) resp, [])
      | inr policyJSON =>
          let url := Endpoint client +:+ "/service/public/v2/api/policy/" +:+ policyID in
          match http_NewRequest "PUT" url (Some policyJSON) with
          | inl err =>
              (resp_AddError "Error Updating Ranger Policy"
                 ("Could not create request: " +:+ err) resp, [])
          | inr request =>
              let request := Header_Set "Authorization" (AuthHeader client) request in
              let request := Header_Set "Content-Type" "application/json" request in
              let request := Header_Set "Accept" "application/json" request in
              match Do client request with
              | inl err =>
                  (resp_AddError "Error Updating Ranger Policy"
                     ("Could not execute API request: " +:+ err) resp, [request])
              | inr response =>
                  if bool_decide (StatusCode response ≠ StatusOK)
                  then
                    (resp_AddError "Error Updating Ranger Policy"
                       ("API returned unexpected status code: "
                          +:+ pretty (StatusCode response)) resp, [request])
                  else
                    match DecodePolicy response with
                    | inl err =>
                        (resp_AddError "Error Updating Ranger Policy"
                           ("Could not decode API response: " +:+ err) resp, [request])
                    | inr updatedPolicy =>
                        let '(resp, diags) := State_Set plan resp in
                        let resp := resp_Append diags resp in
                        (resp, [request])
                    end
              end
          end
      end
  end.

(** [getPolicyByServiceAndName] of the data source: the policy, the
    diagnostics and the requests handed to [client.Do]. *)
Definition getPolicyByServiceAndName (service name : string)
    : Wire.Policy * Diagnostics * list Request :=
  let diags : Diagnostics := [] in
  let apiURL := Endpoint client +:+ "/service/public/v2/api/service/"
                  +:+ url_PathEscape pf service +:+ "/policy" in
  match http_NewRequest "GET" apiURL None with
  | inl err =>
      (Wire.zero,
       AddError diags "Error Reading Ranger Policy" ("Could not create request: " +:+ err),
       [])
  | inr request =>
      let request := set_RawQuery (url_Values_Encode pf "policyName" name) request in
      let request := Header_Set "Authorization" (AuthHeader client) request in
      let request := Header_Set "Accept" "application/json" request in
      match Do client request with
      | inl err =>
          (Wire.zero,
           AddError diags "Error Reading Ranger Policy"
             ("Could not execute API request: " +:+ err),
           [request])
      | inr response =>
          if bool_decide (StatusCode response ≠ StatusOK)
          then
            (Wire.zero,
             AddError diags "Error Reading Ranger Policy"
               ("API returned unexpected status code: " +:+ pretty (StatusCode response)),
             [request])
          else
            match DecodePolicies response with
            | inl err =>
                (Wire.zero,
                 AddError diags "Error Reading Ranger Policy"
                   ("Could not decode API response: " +:+ err),
                 [request])
            | inr policies =>
                (* for _, policy := range policies: the first match returns *)
                match list_find (λ policy, Wire.Name policy = name) (elems policies) with
                | Some (_, policy) => (policy, diags, [request])
                | None =>
                    (Wire.zero,
                     AddError diags "Ranger Policy Not Found"
                       ("No policy found with service '" +:+ service
                          +:+ "' and name '" +:+ name +:+ "'"),
                     [request])
                end
            end
      end
  end.

End Reconciler.

(** ** A reference platform, for evaluating the model on concrete inputs *)

Definition is_blank (c : ascii) : bool :=
  bool_decide (c = " "%char) || bool_decide (c = "009"%char)
  || bool_decide (c = "011"%char) || bool_decide (c = "012"%char)
  || bool_decide (c = "013"%char).

Definition is_digit (c : ascii) : bool :=
  let n := nat_of_ascii c in bool_decide (48 ≤ n)%nat && bool_decide (n ≤ 57)%nat.

Definition digit_value (c : ascii) : Z := Z.of_nat (nat_of_ascii c) - 48.

(** [SkipSpace] of a scan that does not take newlines for spaces. *)
Fixpoint SkipSpace (s : string) : error + string :=
  match s with
  | EmptyString => inr EmptyString
  | String c rest =>
      if bool_decide (c = "010"%char) then inl "unexpected newline"
      else if is_blank c then SkipSpace rest
      else inr s
  end.

(** The longest prefix of decimal digits, which is what the [%d] verb reads
    as its token after the sign. *)
Fixpoint scanNumber (s : string) : list ascii :=
  match s with
  | String c rest => if is_digit c then c :: scanNumber rest else []
  | EmptyString => []
  end.

(** A token between double quotes, as the integer parser prints it. *)
Definition quoted (tok : list ascii) : string :=
  String "034"%char (String.string_of_list_ascii tok +:+ String "034"%char EmptyString).

Definition decimal_value (tok : list ascii) : Z :=
  foldl (λ acc c, 10 * acc + digit_value c) 0 tok.

(** [fmt.Sscanf(s, "%d", &i)] on ASCII input: blanks are skipped, a sign is
    optional, the decimal digits that follow are read and whatever comes
    after them (an underscore, a letter, a blank, a slash) is left unread and
    is no error; input that ends before a digit gives [EOF], and a value
    outside [int64] is rejected by the integer parser, [i] staying 0. *)
Definition ascii_Sscanf_d (s : string) : Z * option error :=
  match SkipSpace s with
  | inl err => (0, Some err)
  | inr EmptyString => (0, Some "EOF")
  | inr (String c rest as s') =>
      let '(sign, s'') :=
        if bool_decide (c = "-"%char) then (["-"%char], rest)
        else if bool_decide (c = "+"%char) then (["+"%char], rest)
        else ([], s') in
      match s'' with
      | EmptyString => (0, Some "EOF")
      | _ =>
          let tok := scanNumber s'' in
          if bool_decide (tok = []) then (0, Some "expected integer")
          else
            let v :=
              if bool_decide (sign = ["-"%char])
              then - decimal_value tok else decimal_value tok in
            if bool_decide (- 2 ^ 63 ≤ v) && bool_decide (v ≤ 2 ^ 63 - 1)
            then (v, None)
            else (0, Some ("strconv.ParseInt: parsing " +:+ quoted (sign ++ tok)
                             +:+ ": value out of range"))
      end
  end.

Definition reference_platform : Platform :=
  {| http_NewRequest_err := λ _ _, None;
     json_Marshal := λ _, inr "{}";
     fmt_Sscanf_d := ascii_Sscanf_d;
     url_PathEscape := λ s, s;
     url_Values_Encode := λ key value, key +:+ "=" +:+ value;
     State_Set_diags := λ _, [];
     conditions_order := λ _, map_to_list;
     resources_order := map_to_list |}.

(** A server that answers every request with the same response. *)
Definition fixed_server (response : Response) : RangerClient :=
  {| Endpoint := "http://ranger.example.com:6080";
     Username := "admin"; Password := "secret";
     Do := λ _, inr response;
     AuthHeader := "Basic YWRtaW46c2VjcmV0" |}.

(** ** Notions used to state the properties *)

(** The access [{type: perm, isAllowed: true}]. *)
Definition allow (perm : string) : Wire.Access :=
  {| Wire.Type_ := perm; Wire.IsAllowed := true |}.

(** The declared resource entry made from one entry of the wire map. *)
Definition resourceModel (entry : string * Wire.PolicyResources)
    : Tf.RangerPolicyResourcesModel :=
  {| Tf.Type_ := StringValue entry.1;
     Tf.Values := Some (map StringValue (elems (Wire.Values entry.2)));
     Tf.IsExclude := BoolValue (Wire.IsExclude entry.2);
     Tf.IsRecursive := BoolValue (Wire.IsRecursive entry.2) |}.

(** The types the declared resource entries name, in order. *)
Definition declared_types (model : Tf.RangerPolicyResourceModel) : list string :=
  map (λ res, ValueString (Tf.Type_ res)) (elems (Tf.Resources model)).

(** The wire resource made from one declared entry. *)
Definition policyResources (res : Tf.RangerPolicyResourcesModel) : Wire.PolicyResources :=
  {| Wire.Values := Some (map ValueString (elems (Tf.Values res)));
     Wire.IsExclude := ValueBool (Tf.IsExclude res);
     Wire.IsRecursive := ValueBool (Tf.IsRecursive res) |}.

(** [policy.Resources[resType] = ...], the body of the loop over the
    declared resources. *)
Definition setResource (resources : gmap string Wire.PolicyResources)
    (res : Tf.RangerPolicyResourcesModel) : gmap string Wire.PolicyResources :=
  <[ValueString (Tf.Type_ res) := policyResources res]> resources.

(** The strings among dynamically typed values, in order. *)
Definition strings_of (vs : list any) : list string :=
  omap (λ v, match v with any_string s => Some s | _ => None end) vs.

(** The body of the loop over [item.Conditions]. *)
Definition setCondition (conditions : gmap string (slice TString))
    (condition : gmap string any) : gmap string (slice TString) :=
  match condition !! "type" with
  | Some (any_string condType) =>
      match condition !! "values" with
      | Some (any_slice condValues) =>
          <[condType := Some (map StringValue (strings_of (elems condValues)))]> conditions
      | _ => conditions
      end
  | _ => conditions
  end.

(** What the round trip makes of a framework value: the known value its
    accessor reads (null and unknown read as the zero value). *)
Definition known (v : TString) : TString := StringValue (ValueString v).
Definition known_bool (v : TBool) : TBool := BoolValue (ValueBool v).
Definition known_int64 (v : TInt64) : TInt64 := Int64Value (ValueInt64 v).

(** A list comes back non-nil, with the same elements in the same order. *)
Definition known_list (vs : slice TString) : slice TString :=
  Some (map known (elems vs)).

(** A resource entry comes back with known values. *)
Definition known_resource (res : Tf.RangerPolicyResourcesModel)
    : Tf.RangerPolicyResourcesModel :=
  {| Tf.Type_ := known (Tf.Type_ res);
     Tf.Values := known_list (Tf.Values res);
     Tf.IsExclude := known_bool (Tf.IsExclude res);
     Tf.IsRecursive := known_bool (Tf.IsRecursive res) |}.

(** A rule item comes back without its conditions. *)
Definition known_item_sans_conditions (item : Tf.RangerPolicyItemModel)
    : Tf.RangerPolicyItemModel :=
  {| Tf.Users := known_list (Tf.Users item);
     Tf.Groups := known_list (Tf.Groups item);
     Tf.Roles := known_list (Tf.Roles item);
     Tf.Permissions := known_list (Tf.Permissions item);
     Tf.DelegateAdmin := known_bool (Tf.DelegateAdmin item);
     Tf.Conditions := ∅ |}.

(** Declarative to wire and back, with no encoding in between. *)
Definition roundtrip (rng : nat → MapRange (slice TString))
    (rng' : MapRange Wire.PolicyResources) (model : Tf.RangerPolicyResourceModel)
    : Tf.RangerPolicyResourceModel :=
  (convertPolicyToModel rng' (convertModelToPolicy rng model).1).1.

(** The wire form of a declared condition, as [convertPolicyItemModel]
    builds it: the values are a [[]string]. *)
Definition declaredCondition (entry : string * slice TString) : gmap string any :=
  <["values" := any_strings (Some (map ValueString (elems entry.2)))]>
    (<["type" := any_string entry.1]> ∅).

(** The wire map entry made from one declared resource. *)
Definition resourceEntry (res : Tf.RangerPolicyResourcesModel)
    : string * Wire.PolicyResources :=
  (ValueString (Tf.Type_ res), policyResources res).

(** The same condition once the wire value has been through JSON: the
    decoder stores an array as a [[]interface{}] of strings. *)
Definition decodedCondition (entry : string * slice TString) : gmap string any :=
  <["values" := any_slice (Some (map (λ v, any_string (ValueString v)) (elems entry.2)))]>
    (<["type" := any_string entry.1]> ∅).

(** The request [getPolicyByServiceAndName] hands to the client. *)
Definition nameSearchRequest (pf : Platform) (client : RangerClient)
    (service name : string) : Request :=
  {| Method := "GET";
     URL := Endpoint client +:+ "/service/public/v2/api/service/"
              +:+ url_PathEscape pf service +:+ "/policy";
     RawQuery := url_Values_Encode pf "policyName" name;
     Header := <["Accept" := "application/json"]>
                 (<["Authorization" := AuthHeader client]> ∅);
     Body := None |}.

(** The error of a name lookup that finds no policy of that name. *)
Definition notFoundByName (service name : string) : Diagnostic :=
  NewErrorDiagnostic "Ranger Policy Not Found"
    ("No policy found with service '" +:+ service +:+ "' and name '" +:+ name +:+ "'").

(** The request [Read] hands to the client. *)
Definition readRequest (client : RangerClient) (id : string) : Request :=
  {| Method := "GET";
     URL := Endpoint client +:+ "/service/public/v2/api/policy/" +:+ id;
     RawQuery := "";
     Header := <["Accept" := "application/json"]>
                 (<["Authorization" := AuthHeader client]> ∅);
     Body := None |}.

(** The error reported for a status code the operation does not accept. *)
Definition unexpectedStatus (summary : string) (status : Z) : Diagnostic :=
  NewErrorDiagnostic summary ("API returned unexpected status code: " +:+ pretty status).

(** The request [Create] hands to the client. *)
Definition createRequest (client : RangerClient) (policyJSON : string) : Request :=
  {| Method := "POST";
     URL := Endpoint client +:+ "/service/public/v2/api/policy";
     RawQuery := "";
     Header := <["Accept" := "application/json"]>
                 (<["Content-Type" := "application/json"]>
                    (<["Authorization" := AuthHeader client]> ∅));
     Body := Some policyJSON |}.

(** The error [Update] reports when [parseInt64] fails with [err]. *)
Definition couldNotParseID (err : error) : Diagnostic :=
  NewErrorDiagnostic "Error Updating Ranger Policy" ("Could not parse policy ID: " +:+ err).

(** ** Sample inputs *)

(** A rule item that grants read and write, with no groups and no roles. *)
Definition read_write_item : Tf.RangerPolicyItemModel :=
  {| Tf.Users := Some [StringValue "alice"]; Tf.Groups := None; Tf.Roles := Some [];
     Tf.Permissions := Some [StringValue "read"; StringValue "write"];
     Tf.DelegateAdmin := BoolValue false; Tf.Conditions := ∅ |}.

(** A policy that declares the resource type "path" twice. *)
Definition duplicate_path_model : Tf.RangerPolicyResourceModel :=
  {| Tf.ID := StringUnknown; Tf.Name := StringValue "finance_reports_access";
     Tf.Service := StringValue "hdfs"; Tf.Description := StringNull;
     Tf.IsEnabled := BoolValue true; Tf.IsAuditEnabled := BoolValue true;
     Tf.Resources :=
       Some [ {| Tf.Type_ := StringValue "path"; Tf.Values := Some [StringValue "/a"];
                 Tf.IsExclude := BoolValue false; Tf.IsRecursive := BoolValue true |};
              {| Tf.Type_ := StringValue "path"; Tf.Values := Some [StringValue "/b"];
                 Tf.IsExclude := BoolValue false; Tf.IsRecursive := BoolValue false |} ];
     Tf.PolicyItems := Some [read_write_item]; Tf.DenyItems := None;
     Tf.PolicyType := Int64Value 0 |}.

(** A wire item with a condition whose value list holds a string and a
    number. *)
Definition mixed_values_item : Wire.PolicyItem :=
  {| Wire.Users := Some ["alice"]; Wire.Groups := None; Wire.Roles := None;
     Wire.Accesses := Some [allow "read"]; Wire.DelegateAdmin := false;
     Wire.Conditions :=
       Some [ {[ "type" := any_string "ip-range";
                 "values" := any_slice (Some [any_string "10.0.0.1"; any_float64 5]) ]} ] |}.

(** A rule item with one condition. *)
Definition conditioned_item : Tf.RangerPolicyItemModel :=
  {| Tf.Users := Some [StringValue "alice"];
     Tf.Groups := Some [StringValue "finance"];
     Tf.Roles := Some [StringValue "analyst"];
     Tf.Permissions := Some [StringValue "read"; StringValue "write"];
     Tf.DelegateAdmin := BoolValue false;
     Tf.Conditions := {[ "ip-range" := Some [StringValue "10.0.0.0/8"] ]} |}.

(** A policy over one path, with that item as its allow and its deny rule. *)
Definition conditioned_policy : Tf.RangerPolicyResourceModel :=
  {| Tf.ID := StringUnknown; Tf.Name := StringValue "finance_reports_access";
     Tf.Service := StringValue "hdfs";
     Tf.Description := StringValue "Policy to allow access to finance reports directory";
     Tf.IsEnabled := BoolValue true; Tf.IsAuditEnabled := BoolValue true;
     Tf.Resources :=
       Some [ {| Tf.Type_ := StringValue "path";
                 Tf.Values := Some [StringValue "/data/finance/reports"];
                 Tf.IsExclude := BoolValue false; Tf.IsRecursive := BoolValue true |} ];
     Tf.PolicyItems := Some [conditioned_item]; Tf.DenyItems := Some [conditioned_item];
     Tf.PolicyType := Int64Value 0 |}.

(** A wire policy of the service "hive" with the given name. *)
Definition named (name : string) : Wire.Policy :=
  {| Wire.ID := 7; Wire.Name := name; Wire.Service := "hive"; Wire.Description := "";
     Wire.IsEnabled := true; Wire.IsAuditEnabled := true; Wire.Resources := ∅;
     Wire.PolicyItems := None; Wire.DenyPolicyItems := None; Wire.PolicyType := 0 |}.

(** The search for "foo" answered with the single policy "foo_v2". *)
Definition foo_v2_response : Response :=
  {| StatusCode := 200;
     DecodePolicy := inl "json: cannot unmarshal array into Go value of type provider.Policy";
     DecodePolicies := inr (Some [named "foo_v2"]) |}.

(** The stored state and the plan of a policy with id 42. *)
Definition stored_state : Data :=
  {| Get_value := Tf.set_ID (StringValue "42") conditioned_policy; Get_diags := [] |}.

(** The response an operation on that policy starts from. *)
Definition prior_response : ResourceResponse :=
  {| State := Some (Get_value stored_state); Diagnostics_ := [] |}.

(** A response with the given status and no body. *)
Definition status_response (status : Z) : Response :=
  {| StatusCode := status;
     DecodePolicy := inl "EOF";
     DecodePolicies := inl "EOF" |}.

(** The server echoes a policy that differs from the plan in every field. *)
Definition created_response : Response :=
  {| StatusCode := 201;
     DecodePolicy := inr (Wire.set_ID 42 (named "normalized-by-the-server"));
     DecodePolicies := inl "json: cannot unmarshal object into Go value of type []provider.Policy" |}.

(** A plan whose id is not a number. *)
Definition unparseable_plan : Data :=
  {| Get_value := Tf.set_ID (StringValue "abc") conditioned_policy; Get_diags := [] |}.

(** ** Further operations of the resource and of the data source *)

Definition StatusNoContent : Z := 204.

Record DeleteRequest := { Delete_State : Data }.
Record DataSourceReadRequest := { Read_Config : Data }.

(** What a provider hands to [Configure] as [ProviderData]: nothing, the
    Ranger client, or a value of another type (named as [%T] prints it). *)
Inductive ProviderData :=
  | ProviderData_nil
  | ProviderData_client (c : RangerClient)
  | ProviderData_other (type_name : string).

(** [rangerPolicyResource] and [RangerPolicyDataSource]: both hold the
    client, nil until configured. *)
Record rangerPolicyResource := { client : option RangerClient }.

Record ResourceConfigureRequest := { Configure_ProviderData : ProviderData }.
Record ResourceConfigureResponse := { Configure_Diagnostics : Diagnostics }.

(** [Configure] of the resource, and word for word of the data source: the
    receiver and the response after the call. *)
Definition Configure (r : rangerPolicyResource) (req : ResourceConfigureRequest)
    (resp : ResourceConfigureResponse) : rangerPolicyResource * ResourceConfigureResponse :=
  match Configure_ProviderData req with
  | ProviderData_nil => (r, resp)
  | ProviderData_client c => ({| client := Some c |}, resp)
  | ProviderData_other type_name =>
      (r, {| Configure_Diagnostics :=
               AddError (Configure_Diagnostics resp)
                 "Unexpected Data Source Configure Type"
                 ("Expected *RangerClient, got: " +:+ type_name
                    +:+ ". Please report this issue to the provider developers.") |})
  end.

(** [Metadata] of the resource and of the data source. *)
Definition Metadata (ProviderTypeName : string) : string := ProviderTypeName +:+ "_policy".

Section Operations.

Context (pf : Platform) (client : RangerClient).

(** [Delete] *)
Definition Delete (req : DeleteRequest) (resp : ResourceResponse)
    : ResourceResponse * list Request :=
  let state := Get_value (Delete_State req) in
  let diags := Get_diags (Delete_State req) in
  let resp := resp_Append diags resp in
  if HasError (Diagnostics_ resp) then (resp, []) else
  let policyID := ValueString (Tf.ID state) in
  let url := Endpoint client +:+ "/service/public/v2/api/policy/" +:+ policyID in
  match http_NewRequest pf "DELETE" url None with
  | inl err =>
      (resp_AddError "Error Deleting Ranger Policy"
         ("Could not create request: " +:+ err) resp, [])
  | inr request =>
      let request := Header_Set "Authorization" (AuthHeader client) request in
      match Do client request with
      | inl err =>
          (resp_AddError "Error Deleting Ranger Policy"
             ("Could not execute API request: " +:+ err) resp, [request])
      | inr response =>
          if bool_decide (StatusCode response ≠ StatusOK)
             && bool_decide (StatusCode response ≠ StatusNoContent)
          then
            (resp_AddError "Error Deleting Ranger Policy"
               ("API returned unexpected status code: "
                  +:+ pretty (StatusCode response)) resp, [request])
          else (resp, [request])
      end
  end.

(** [getPolicyByID] of the data source *)
Definition getPolicyByID (id : string) : Wire.Policy * Diagnostics * list Request :=
  let diags : Diagnostics := [] in
  let url := Endpoint client +:+ "/service/public/v2/api/policy/" +:+ id in
  match http_NewRequest pf "GET" url None with
  | inl err =>
      (Wire.zero,
       AddError diags "Error Reading Ranger Policy" ("Could not create request: " +:+ err),
       [])
  | inr request =>
      let request := Header_Set "Authorization" (AuthHeader client) request in
      let request := Header_Set "Accept" "application/json" request in
      match Do client request with
      | inl err =>
          (Wire.zero,
           AddError diags "Error Reading Ranger Policy"
             ("Could not execute API request: " +:+ err),
           [request])
      | inr response =>
          if bool_decide (StatusCode response = StatusNotFound)
          then
            (Wire.zero,
             AddError diags "Ranger Policy Not Found" ("No policy found with ID " +:+ id),
             [request])
          else if bool_decide (StatusCode response ≠ StatusOK)
          then
            (Wire.zero,
             AddError diags "Error Reading Ranger Policy"
               ("API returned unexpected status code: " +:+ pretty (StatusCode response)),
             [request])
          else
            match DecodePolicy response with
            | inl err =>
                (Wire.zero,
                 AddError diags "Error Reading Ranger Policy"
                   ("Could not decode API response: " +:+ err),
                 [request])
            | inr policy => (policy, diags, [request])
            end
      end
  end.

(** [Read] of the data source.  [RangerPolicyDataSourceModel] has the fields
    of the resource model, so the same record stands for it. *)
Definition DataSource_Read (req : DataSourceReadRequest) (resp : ResourceResponse)
    : ResourceResponse * list Request :=
  let data := Get_value (Read_Config req) in
  let resp := resp_Append (Get_diags (Read_Config req)) resp in
  if HasError (Diagnostics_ resp) then (resp, []) else
  let '(policy, diags, sent) :=
    if negb (IsNull (Tf.ID data))
    then getPolicyByID (ValueString (Tf.ID data))
    else getPolicyByServiceAndName pf client
           (ValueString (Tf.Service data)) (ValueString (Tf.Name data)) in
  let resp := resp_Append diags resp in
  if HasError (Diagnostics_ resp) then (resp, sent) else
  let '(model, diags) := convertPolicyToModel (resources_order pf) policy in
  let resp := resp_Append diags resp in
  if HasError (Diagnostics_ resp) then (resp, sent) else
  let data :=
    {| Tf.ID := Tf.ID model;
       Tf.Name := Tf.Name model;
       Tf.Service := Tf.Service model;
       Tf.Description := Tf.Description model;
       Tf.IsEnabled := Tf.IsEnabled model;
       Tf.IsAuditEnabled := Tf.IsAuditEnabled model;
       Tf.PolicyType := Tf.PolicyType model;
       Tf.Resources := Tf.Resources model;
       Tf.PolicyItems := Tf.PolicyItems model;
       Tf.DenyItems := Tf.DenyItems model |} in
  let '(resp, diags) := State_Set pf data resp in
  (resp_Append diags resp, sent).

End Operations.

(** ** The provider's own configuration *)

(** [IsNull] of a [types.Bool] *)
Definition BoolIsNull (v : TBool) : bool :=
  match v with
  | BoolNull => true
  | _ => false
  end.

Module Provider.

Record RangerProviderModel := {
  Endpoint : TString;
  Username : TString;
  Password : TString;
  Insecure : TBool;
}.

(** A diagnostic with the attribute path it is attached to, if any. *)
Definition PathDiagnostic : Type := option string * Diagnostic.

Definition HasError (diags : list PathDiagnostic) : bool :=
  existsb (λ d, is_error d.2) diags.

Definition Append (diags in_ : list PathDiagnostic) : list PathDiagnostic :=
  foldl (λ acc d, if decide (d ∈ acc) then acc else acc ++ [d]) diags in_.

(** [AddAttributeError(path.Root(attribute), summary, detail)] *)
Definition AddAttributeError (diags : list PathDiagnostic) (attribute summary detail : string)
    : list PathDiagnostic :=
  Append diags [(Some attribute, NewErrorDiagnostic summary detail)].

(** [tls.Config] and [http.Transport], as far as [Configure] sets them. *)
Record TLSConfig := { InsecureSkipVerify : bool }.
Record Transport := { TLSClientConfig : option TLSConfig }.

Record ConfigureRequest := {
  Config_value : RangerProviderModel;
  Config_diags : list PathDiagnostic;
}.

Record ConfigureResponse := {
  Diagnostics : list PathDiagnostic;
  DataSourceData : ProviderData;
  ResourceData : ProviderData;
}.

(** Whether [s] is [s' ++ suffix], and that [s']. *)
Fixpoint cut_suffix (s suffix : string) : option string :=
  if String.eqb s suffix then Some EmptyString
  else match s with
       | EmptyString => None
       | String c rest => String c <$> cut_suffix rest suffix
       end.

(** [strings.TrimSuffix] *)
Definition TrimSuffix (s suffix : string) : string :=
  default s (cut_suffix s suffix).

(** The three errors [Configure] attaches to a missing attribute. *)
Definition missingEndpoint : PathDiagnostic :=
  (Some "endpoint",
   NewErrorDiagnostic "Missing Ranger API Endpoint"
     "The provider requires the endpoint attribute to be set to the base URL of your Apache Ranger Admin REST API.").

Definition missingUsername : PathDiagnostic :=
  (Some "username",
   NewErrorDiagnostic "Missing Ranger Username"
     "The provider requires a username with administrative privileges for authentication with Apache Ranger.").

Definition missingPassword : PathDiagnostic :=
  (Some "password",
   NewErrorDiagnostic "Missing Ranger Password"
     "The provider requires a password for authentication with Apache Ranger.").

Section Configure.

(** The network behind an [http.Client] with the given transport, and
    [base64.StdEncoding.EncodeToString]. *)
Context (http_Client_Do : Transport → Request → error + Response)
        (base64_EncodeToString : string → string).

(** [Configure] of the provider *)
Definition Configure (req : ConfigureRequest) (resp : ConfigureResponse) : ConfigureResponse :=
  let data := Config_value req in
  let diags := Append (Diagnostics resp) (Config_diags req) in
  if HasError diags
  then {| Diagnostics := diags; DataSourceData := DataSourceData resp;
          ResourceData := ResourceData resp |}
  else
  let diags :=
    if IsNull (Endpoint data)
    then AddAttributeError diags "endpoint" "Missing Ranger API Endpoint"
           "The provider requires the endpoint attribute to be set to the base URL of your Apache Ranger Admin REST API."
    else diags in
  let diags :=
    if IsNull (Username data)
    then AddAttributeError diags "username" "Missing Ranger Username"
           "The provider requires a username with administrative privileges for authentication with Apache Ranger."
    else diags in
  let diags :=
    if IsNull (Password data)
    then AddAttributeError diags "password" "Missing Ranger Password"
           "The provider requires a password for authentication with Apache Ranger."
    else diags in
  if HasError diags
  then {| Diagnostics := diags; DataSourceData := DataSourceData resp;
          ResourceData := ResourceData resp |}
  else
  let tlsConfig := {| InsecureSkipVerify := false |} in
  let transport := {| TLSClientConfig := None |} in
  let transport :=
    if negb (BoolIsNull (Insecure data)) && ValueBool (Insecure data)
    then
      let tlsConfig := {| InsecureSkipVerify := true |} in
      {| TLSClientConfig := Some tlsConfig |}
    else transport in
  let authString := ValueString (Username data) +:+ ":" +:+ ValueString (Password data) in
  let encodedAuth := base64_EncodeToString authString in
  let authHeader := "Basic " +:+ encodedAuth in
  let rangerClient :=
    Build_RangerClient
      (* Endpoint *) (TrimSuffix (ValueString (Endpoint data)) "/")
      (* Username *) (ValueString (Username data))
      (* Password *) (ValueString (Password data))
      (* Client *) (http_Client_Do transport)
      (* AuthHeader *) authHeader in
  {| Diagnostics := diags;
     DataSourceData := ProviderData_client rangerClient;
     ResourceData := ProviderData_client rangerClient |}.

End Configure.

End Provider.

(** ** Notions used to state the further properties *)

(** The request [Update] hands to the client. *)
Definition updateRequest (client : RangerClient) (policyID policyJSON : string) : Request :=
  {| Method := "PUT";
     URL := Endpoint client +:+ "/service/public/v2/api/policy/" +:+ policyID;
     RawQuery := "";
     Header := <["Accept" := "application/json"]>
                 (<["Content-Type" := "application/json"]>
                    (<["Authorization" := AuthHeader client]> ∅));
     Body := Some policyJSON |}.

(** The request [Delete] hands to the client. *)
Definition deleteRequest (client : RangerClient) (policyID : string) : Request :=
  {| Method := "DELETE";
     URL := Endpoint client +:+ "/service/public/v2/api/policy/" +:+ policyID;
     RawQuery := "";
     Header := <["Authorization" := AuthHeader client]> ∅;
     Body := None |}.


(** The lookup the data source makes for a configuration: by id when the
    id is not null, by service and name otherwise. *)
Definition lookupPolicy (pf : Platform) (client : RangerClient)
    (data : Tf.RangerPolicyResourceModel) : Wire.Policy * Diagnostics * list Request :=
  if negb (IsNull (Tf.ID data))
  then getPolicyByID pf client (ValueString (Tf.ID data))
  else getPolicyByServiceAndName pf client
         (ValueString (Tf.Service data)) (ValueString (Tf.Name data)).

(** A configuration that gives an id next to a service and a name. *)
Definition config_with_id : Data :=
  {| Get_value :=
       {| Tf.ID := StringValue "42"; Tf.Name := StringValue "foo";
          Tf.Service := StringValue "hive"; Tf.Description := StringNull;
          Tf.IsEnabled := BoolNull; Tf.IsAuditEnabled := BoolNull;
          Tf.Resources := None; Tf.PolicyItems := None; Tf.DenyItems := None;
          Tf.PolicyType := Int64Null |};
     Get_diags := [] |}.

(** Wire to declarative and back to wire. *)
Definition reverse_roundtrip (rng : nat → MapRange (slice TString))
    (rng' : MapRange Wire.PolicyResources) (policy : Wire.Policy) : Wire.Policy :=
  (convertModelToPolicy rng (convertPolicyToModel rng' policy).1).1.

(** A wire resource with its value list made non-nil. *)
Definition non_nil_values (res : Wire.PolicyResources) : Wire.PolicyResources :=
  {| Wire.Values := Some (elems (Wire.Values res));
     Wire.IsExclude := Wire.IsExclude res;
     Wire.IsRecursive := Wire.IsRecursive res |}.

(** The slice that is nil when it has no element. *)
Definition nil_if_empty {A} (l : list A) : slice A :=
  match l with
  | [] => None
  | _ => Some l
  end.

(** A wire rule item as it is sent again after a refresh, conditions
    apart: empty lists are nil and only the allowed accesses remain. *)
Definition resent_item (item : Wire.PolicyItem) (conditions : slice (gmap string any))
    : Wire.PolicyItem :=
  {| Wire.Users := nil_if_empty (elems (Wire.Users item));
     Wire.Groups := nil_if_empty (elems (Wire.Groups item));
     Wire.Roles := nil_if_empty (elems (Wire.Roles item));
     Wire.Accesses :=
       nil_if_empty (filter (λ a, Wire.IsAllowed a = true) (elems (Wire.Accesses item)));
     Wire.DelegateAdmin := Wire.DelegateAdmin item;
     Wire.Conditions := conditions |}.

(** A server policy with a nil value list, an empty user list and a
    refused access. *)
Definition server_policy : Wire.Policy :=
  {| Wire.ID := 42; Wire.Name := "finance_reports_access"; Wire.Service := "hdfs";
     Wire.Description := "from the server";
     Wire.IsEnabled := true; Wire.IsAuditEnabled := false;
     Wire.Resources :=
       {[ "path" := {| Wire.Values := Some ["/data/finance"]; Wire.IsExclude := false;
                       Wire.IsRecursive := true |};
          "database" := {| Wire.Values := None; Wire.IsExclude := true;
                           Wire.IsRecursive := false |} ]};
     Wire.PolicyItems :=
       Some [ {| Wire.Users := Some []; Wire.Groups := Some ["finance"];
                 Wire.Roles := None;
                 Wire.Accesses :=
                   Some [allow "read";
                         {| Wire.Type_ := "write"; Wire.IsAllowed := false |}];
                 Wire.DelegateAdmin := true; Wire.Conditions := None |} ];
     Wire.DenyPolicyItems := Some [];
     Wire.PolicyType := 0 |}.

(** What the wire item made from a declared rule item carries, conditions
    apart: the declared strings in order, and one allowed access for each
    permission, in order. *)
Definition item_translates (declared : Tf.RangerPolicyItemModel) (item : Wire.PolicyItem)
    : Prop :=
  elems (Wire.Users item) = map ValueString (elems (Tf.Users declared))
  ∧ elems (Wire.Groups item) = map ValueString (elems (Tf.Groups declared))
  ∧ elems (Wire.Roles item) = map ValueString (elems (Tf.Roles declared))
  ∧ elems (Wire.Accesses item)
    = map (λ perm, allow (ValueString perm)) (elems (Tf.Permissions declared))
  ∧ Wire.DelegateAdmin item = ValueBool (Tf.DelegateAdmin declared).

(** A wire item whose condition type "ip-range" comes twice. *)
Definition repeated_condition_item : Wire.PolicyItem :=
  {| Wire.Users := Some ["alice"]; Wire.Groups := None; Wire.Roles := None;
     Wire.Accesses := Some [allow "read"]; Wire.DelegateAdmin := false;
     Wire.Conditions :=
       Some [ {[ "type" := any_string "ip-range";
                 "values" := any_slice (Some [any_string "10.0.0.1"]) ]};
              {[ "type" := any_string "ip-range";
                 "values" := any_slice (Some [any_string "192.168.0.1"]) ]} ] |}.

(** A provider configuration with a trailing slash on the endpoint. *)
Definition sample_provider_config : Provider.ConfigureRequest :=
  {| Provider.Config_value :=
       {| Provider.Endpoint := StringValue "http://ranger.example.com:6080/";
          Provider.Username := StringValue "admin";
          Provider.Password := StringValue "secret";
          Provider.Insecure := BoolNull |};
     Provider.Config_diags := [] |}.

(** A provider configuration without a password. *)
Definition passwordless_provider_config : Provider.ConfigureRequest :=
  {| Provider.Config_value :=
       {| Provider.Endpoint := StringValue "http://ranger.example.com:6080";
          Provider.Username := StringValue "admin";
          Provider.Password := StringNull;
          Provider.Insecure := BoolNull |};
     Provider.Config_diags := [] |}.

(** The response a provider configuration starts from. *)
Definition empty_provider_response : Provider.ConfigureResponse :=
  {| Provider.Diagnostics := []; Provider.DataSourceData := ProviderData_nil;
     Provider.ResourceData := ProviderData_nil |}.

(** A network on which nothing answers. *)
Definition silent_network (_ : Provider.Transport) (_ : Request) : error + Response :=
  inl "connection refused".

(** Whether a string is a decimal integer: an optional sign followed by
    one or more decimal digits and nothing else. *)
Definition decimal_integer_text (s : string) : bool :=
  let digits :=
    match s with
    | String c rest =>
        if bool_decide (c = "-"%char) || bool_decide (c = "+"%char) then rest else s
    | EmptyString => s
    end in
  negb (bool_decide (digits = EmptyString))
  && forallb is_digit (String.list_ascii_of_string digits).


(** ** Slices and loops *)

Lemma collect_acc {A B} (f : A → B) (l : list A) (acc : list B) :
  foldl (λ out v, append out (f v)) (Some acc) l = Some (acc ++ map f l).
Proof.
  revert acc. induction l as [|a l IH]; intros acc; simpl.
  - by rewrite app_nil_r.
  - unfold append at 2. simpl. rewrite IH. by rewrite <- app_assoc.
Qed.

Lemma collect_map {A B} (f : A → B) (vs : slice A) :
  collect f vs = Some (map f (elems vs)).
Proof. unfold collect, make. by rewrite collect_acc. Qed.

Lemma foldl_fun_ext {A B} (f g : A → B → A) (l : list B) (a : A) :
  (∀ a b, f a b = g a b) → foldl f a l = foldl g a l.
Proof.
  intros Hfg. revert a. induction l as [|b l IH]; intros a; simpl; [done|].
  by rewrite Hfg, IH.
Qed.

Lemma len_zero_elems {A} (s : slice A) : ¬ (0 < len s)%nat → elems s = [].
Proof. unfold len. destruct (elems s); simpl; [done | lia]. Qed.

Lemma Append_nil (diags : Diagnostics) : Append diags [] = diags.
Proof. done. Qed.

(** The item loop, when the conversion of an item reports nothing. *)
Lemma convertItems_acc {A B} (conv : nat → A → B * Diagnostics) base items acc diags :
  (∀ n a, (conv n a).2 = []) →
  foldl (λ '(out, diags) item,
           let '(policyItem, itemDiags) := conv (base + len out)%nat item in
           (append out policyItem, Append diags itemDiags))
        (Some acc, diags) items
  = (Some (acc ++ imap (λ i a, (conv (base + (length acc + i))%nat a).1) items), diags).
Proof.
  intros Hconv. revert acc. induction items as [|a items IH]; intros acc; simpl.
  - by rewrite app_nil_r.
  - pose proof (Hconv (base + len (Some acc))%nat a) as Ha.
    destruct (conv (base + len (Some acc))%nat a) as [b d] eqn:E.
    simpl in Ha. subst d. unfold append at 2. cbn [elems].
    rewrite IH. f_equal. f_equal. rewrite <- app_assoc. simpl. f_equal.
    unfold len in E. simpl in E. rewrite Nat.add_0_r, E. simpl. f_equal.
    apply imap_ext. intros i x _. simpl. rewrite length_app. simpl.
    do 3 f_equal. lia.
Qed.

Lemma convertItems_spec {A B} (conv : nat → A → B * Diagnostics) base items diags :
  (∀ n a, (conv n a).2 = []) →
  convertItems conv base items diags
  = (Some (imap (λ i a, (conv (base + i)%nat a).1) items), diags).
Proof.
  intros Hconv. exact (convertItems_acc conv base items [] diags Hconv).
Qed.

Lemma convertPolicyItemModel_diags rng itemModel :
  (convertPolicyItemModel rng itemModel).2 = [].
Proof. done. Qed.

Lemma convertPolicyItem_diags item : (convertPolicyItem item).2 = [].
Proof. done. Qed.

(** The wire policy, field by field. *)
Lemma convertModelToPolicy_items rng model :
  Wire.PolicyItems (convertModelToPolicy rng model).1
  = (if decide (0 < len (Tf.PolicyItems model))%nat
     then Some (imap (λ i a, (convertPolicyItemModel (rng i) a).1)
                  (elems (Tf.PolicyItems model)))
     else None)
  ∧ Wire.DenyPolicyItems (convertModelToPolicy rng model).1
  = (if decide (0 < len (Tf.DenyItems model))%nat
     then Some (imap (λ i a,
                        (convertPolicyItemModel (rng (len (Tf.PolicyItems model) + i)%nat) a).1)
                  (elems (Tf.DenyItems model)))
     else None)
  ∧ (convertModelToPolicy rng model).2 = [].
Proof.
  unfold convertModelToPolicy.
  destruct (decide (0 < len (Tf.PolicyItems model))%nat);
    destruct (decide (0 < len (Tf.DenyItems model))%nat);
    rewrite ?(convertItems_spec (λ n, convertPolicyItemModel (rng n)))
      by (intros; apply convertPolicyItemModel_diags);
    simpl; done.
Qed.

Lemma convertPolicyToModel_items rng policy :
  Tf.PolicyItems (convertPolicyToModel rng policy).1
  = Some (map (λ a, (convertPolicyItem a).1) (elems (Wire.PolicyItems policy)))
  ∧ Tf.DenyItems (convertPolicyToModel rng policy).1
  = Some (map (λ a, (convertPolicyItem a).1) (elems (Wire.DenyPolicyItems policy)))
  ∧ (convertPolicyToModel rng policy).2 = [].
Proof.
  unfold convertPolicyToModel.
  rewrite !(convertItems_spec (λ _, convertPolicyItem))
    by (intros; apply convertPolicyItem_diags).
  simpl. rewrite <- !imap_const. done.
Qed.

(** ** Permissions and accesses *)

Lemma permissions_acc (l : list Wire.Access) (acc : list TString) :
  foldl (λ permissions access,
           if Wire.IsAllowed access
           then append permissions (StringValue (Wire.Type_ access))
           else permissions)
        (Some acc) l
  = Some (acc ++ map (λ a, StringValue (Wire.Type_ a))
                     (filter (λ a, Wire.IsAllowed a = true) l)).
Proof.
  revert acc. induction l as [|a l IH]; intros acc; simpl.
  - by rewrite app_nil_r.
  - destruct (Wire.IsAllowed a) eqn:Ha.
    + rewrite filter_cons_True by done. unfold append. simpl.
      rewrite IH. by rewrite <- app_assoc.
    + rewrite filter_cons_False by congruence. apply IH.
Qed.

Lemma convertPolicyItem_Permissions item :
  Tf.Permissions (convertPolicyItem item).1
  = Some (map (λ a, StringValue (Wire.Type_ a))
              (filter (λ a, Wire.IsAllowed a = true) (elems (Wire.Accesses item)))).
Proof. exact (permissions_acc (elems (Wire.Accesses item)) []). Qed.

Lemma convertPolicyItemModel_Accesses rng itemModel :
  elems (Wire.Accesses (convertPolicyItemModel rng itemModel).1)
  = map (λ perm, allow (ValueString perm)) (elems (Tf.Permissions itemModel)).
Proof.
  simpl. destruct (decide (0 < len (Tf.Permissions itemModel))%nat) as [H|H].
  - by rewrite collect_map.
  - by rewrite (len_zero_elems _ H).
Qed.

(** C5: declared permissions ["read", "write"] become exactly the accesses
    [{read, true}, {write, true}]; the permissions recovered from a wire item
    are exactly the type names of its accesses with [isAllowed = true], in
    their order, so an access with [isAllowed = false] is left out and
    reordering the accesses only reorders the same permissions; in
    particular ["read", "write"] is recovered from its own translation. *)
Theorem permissions_accesses_translation :
  (∀ rng itemModel,
     Tf.Permissions itemModel = Some [StringValue "read"; StringValue "write"] →
     Wire.Accesses (convertPolicyItemModel rng itemModel).1
       = Some [allow "read"; allow "write"]
     ∧ Tf.Permissions (convertPolicyItem (convertPolicyItemModel rng itemModel).1).1
       = Some [StringValue "read"; StringValue "write"])
  ∧ (∀ item,
       Tf.Permissions (convertPolicyItem item).1
       = Some (map (λ a, StringValue (Wire.Type_ a))
                   (filter (λ a, Wire.IsAllowed a = true) (elems (Wire.Accesses item)))))
  ∧ (∀ item perm,
       StringValue perm ∈ elems (Tf.Permissions (convertPolicyItem item).1)
       ↔ allow perm ∈ elems (Wire.Accesses item))
  ∧ (∀ item item',
       elems (Wire.Accesses item) ≡ₚ elems (Wire.Accesses item') →
       elems (Tf.Permissions (convertPolicyItem item).1)
         ≡ₚ elems (Tf.Permissions (convertPolicyItem item').1)).
Proof.
  split; [|split; [|split]].
  - intros rng itemModel Hperm. split.
    + simpl. rewrite Hperm. reflexivity.
    + rewrite convertPolicyItem_Permissions.
      pose proof (convertPolicyItemModel_Accesses rng itemModel) as Hacc.
      rewrite Hperm in Hacc. rewrite Hacc. reflexivity.
  - apply convertPolicyItem_Permissions.
  - intros item perm. rewrite convertPolicyItem_Permissions. simpl.
    rewrite list_elem_of_fmap. split.
    + intros (a & Heq & Ha). apply list_elem_of_filter in Ha as [Hallowed Ha].
      destruct a as [ty al]. simpl in *. injection Heq as ->. subst al. exact Ha.
    + intros Ha. exists (allow perm). split; [done|].
      apply list_elem_of_filter. done.
  - intros item item' Hperm. rewrite !convertPolicyItem_Permissions. simpl.
    by rewrite Hperm.
Qed.

Lemma permissions_accesses_translation_witness :
  Wire.Accesses (convertPolicyItemModel map_to_list read_write_item).1
    = Some [allow "read"; allow "write"]
  ∧ Tf.Permissions
      (convertPolicyItem (convertPolicyItemModel map_to_list read_write_item).1).1
    = Some [StringValue "read"; StringValue "write"].
Proof.
  apply (proj1 permissions_accesses_translation map_to_list read_write_item).
  reflexivity.
Defined.

(** ** The translator reports nothing *)

(** C9: neither direction of the translation ever reports a diagnostic:
    [convertPolicyItemModel], [convertPolicyItem], [convertModelToPolicy] and
    [convertPolicyToModel] return an empty diagnostics collection for every
    input, whatever the iteration order of the maps. *)
Theorem translation_never_fails :
  (∀ rng itemModel, (convertPolicyItemModel rng itemModel).2 = [])
  ∧ (∀ item, (convertPolicyItem item).2 = [])
  ∧ (∀ rng model, (convertModelToPolicy rng model).2 = []
                  ∧ HasError (convertModelToPolicy rng model).2 = false)
  ∧ (∀ rng policy, (convertPolicyToModel rng policy).2 = []
                   ∧ HasError (convertPolicyToModel rng policy).2 = false).
Proof.
  split; [|split; [|split]].
  - apply convertPolicyItemModel_diags.
  - apply convertPolicyItem_diags.
  - intros rng model.
    destruct (convertModelToPolicy_items rng model) as (_ & _ & ->). done.
  - intros rng policy.
    destruct (convertPolicyToModel_items rng policy) as (_ & _ & ->). done.
Qed.

(** ** Resources, wire to declarative *)

Lemma resources_loop_acc (l : list (string * Wire.PolicyResources)) acc :
  foldl (λ resources '(resType, resValue),
           let values := collect StringValue (Wire.Values resValue) in
           append resources
             {| Tf.Type_ := StringValue resType;
                Tf.Values := values;
                Tf.IsExclude := BoolValue (Wire.IsExclude resValue);
                Tf.IsRecursive := BoolValue (Wire.IsRecursive resValue) |})
        (Some acc) l
  = Some (acc ++ map resourceModel l).
Proof.
  revert acc. induction l as [|[k v] l IH]; intros acc; simpl.
  - by rewrite app_nil_r.
  - unfold append at 2. simpl. rewrite IH, collect_map. by rewrite <- app_assoc.
Qed.

Lemma convertPolicyToModel_Resources rng policy :
  Tf.Resources (convertPolicyToModel rng policy).1
  = Some (map resourceModel (rng (Wire.Resources policy))).
Proof.
  unfold convertPolicyToModel.
  destruct (convertItems _ _ (elems (Wire.PolicyItems policy)) _) as [a d].
  destruct (convertItems _ _ (elems (Wire.DenyPolicyItems policy)) _) as [a' d'].
  simpl. exact (resources_loop_acc (rng (Wire.Resources policy)) []).
Qed.

(** ** Empty lists on the wire *)

(** C10: declarative-to-wire leaves a wire list nil exactly when the declared
    list is empty (users, groups, roles, accesses of a rule item; policyItems
    and denyPolicyItems of a policy), while wire-to-declarative always yields
    lists that are not nil. *)
Theorem empty_lists_are_omitted :
  (∀ rng itemModel,
     let item := (convertPolicyItemModel rng itemModel).1 in
     (len (Tf.Users itemModel) = 0%nat ↔ Wire.Users item = None)
     ∧ (len (Tf.Groups itemModel) = 0%nat ↔ Wire.Groups item = None)
     ∧ (len (Tf.Roles itemModel) = 0%nat ↔ Wire.Roles item = None)
     ∧ (len (Tf.Permissions itemModel) = 0%nat ↔ Wire.Accesses item = None))
  ∧ (∀ rng model,
       let policy := (convertModelToPolicy rng model).1 in
       (len (Tf.PolicyItems model) = 0%nat ↔ Wire.PolicyItems policy = None)
       ∧ (len (Tf.DenyItems model) = 0%nat ↔ Wire.DenyPolicyItems policy = None))
  ∧ (∀ item,
       let itemModel := (convertPolicyItem item).1 in
       is_nil (Tf.Users itemModel) = false
       ∧ is_nil (Tf.Groups itemModel) = false
       ∧ is_nil (Tf.Roles itemModel) = false
       ∧ is_nil (Tf.Permissions itemModel) = false)
  ∧ (∀ rng policy,
       let model := (convertPolicyToModel rng policy).1 in
       is_nil (Tf.Resources model) = false
       ∧ is_nil (Tf.PolicyItems model) = false
       ∧ is_nil (Tf.DenyItems model) = false).
Proof.
  split; [|split; [|split]].
  - intros rng itemModel. simpl.
    repeat split; intros H;
      try (destruct (decide _) as [Hlt|Hlt]; [lia | done]);
      (destruct (decide _) as [Hlt|Hlt]; [by rewrite collect_map in H | lia]).
  - intros rng model. simpl.
    destruct (convertModelToPolicy_items rng model) as (-> & -> & _).
    repeat split; intros H;
      try (destruct (decide _) as [Hlt|Hlt]; [lia | done]);
      (destruct (decide _) as [Hlt|Hlt]; [done | lia]).
  - intros item. simpl. rewrite !collect_map.
    pose proof (convertPolicyItem_Permissions item) as Hp. simpl in Hp.
    rewrite Hp. done.
  - intros rng policy. simpl.
    destruct (convertPolicyToModel_items rng policy) as (-> & -> & _).
    rewrite convertPolicyToModel_Resources. done.
Qed.

Lemma empty_lists_are_omitted_witness :
  Wire.Groups (convertPolicyItemModel map_to_list read_write_item).1 = None
  ∧ Wire.Roles (convertPolicyItemModel map_to_list read_write_item).1 = None.
Proof.
  destruct (proj1 empty_lists_are_omitted map_to_list read_write_item)
    as (_ & Hgroups & Hroles & _).
  split; [apply Hgroups | apply Hroles]; reflexivity.
Defined.

(** ** Resources, declarative to wire *)

Lemma convertModelToPolicy_Resources rng model :
  Wire.Resources (convertModelToPolicy rng model).1
  = foldl setResource ∅ (elems (Tf.Resources model)).
Proof.
  unfold convertModelToPolicy.
  destruct (decide (0 < len (Tf.PolicyItems model))%nat);
    destruct (decide (0 < len (Tf.DenyItems model))%nat);
    repeat match goal with
           | |- context [convertItems ?c ?b ?l ?d] => destruct (convertItems c b l d)
           end;
    simpl; apply foldl_fun_ext; intros m res;
    unfold setResource, policyResources; by rewrite collect_map.
Qed.

(** Each key holds what the last declared entry of that type says. *)
Lemma setResource_lookup l m k :
  foldl setResource m l !! k
  = match last (filter (λ res, ValueString (Tf.Type_ res) = k) l) with
    | Some res => Some (policyResources res)
    | None => m !! k
    end.
Proof.
  revert m. induction l as [|a l IH]; intros m; simpl; [done|].
  rewrite IH. destruct (decide (ValueString (Tf.Type_ a) = k)) as [Hk|Hk].
  - rewrite filter_cons_True by done. rewrite last_cons.
    destruct (last (filter _ l)); [done|].
    unfold setResource. by rewrite Hk, lookup_insert_eq.
  - rewrite filter_cons_False by done.
    destruct (last (filter _ l)); [done|].
    unfold setResource. by rewrite lookup_insert_ne.
Qed.

(** C6, as stated, fails: a model that declares the type "path" twice is
    translated without any diagnostic, and the wire map keeps the second
    entry only. *)
Lemma duplicate_resource_types_counterexample :
  ¬ NoDup (declared_types duplicate_path_model)
  ∧ (convertModelToPolicy (λ _, map_to_list) duplicate_path_model).2 = []
  ∧ HasError (convertModelToPolicy (λ _, map_to_list) duplicate_path_model).2 = false
  ∧ Wire.Resources (convertModelToPolicy (λ _, map_to_list) duplicate_path_model).1
    = {[ "path" := {| Wire.Values := Some ["/b"]; Wire.IsExclude := false;
                      Wire.IsRecursive := false |} ]}.
Proof.
  split; [|split; [|split]].
  - intros H. apply NoDup_cons_1_1 in H. apply H. by left.
  - reflexivity.
  - reflexivity.
  - vm_compute. reflexivity.
Qed.

(** C6, amended: a re-declared resource type is never reported; the wire
    map holds, under each declared type, the translation of the last
    declared entry of that type, and no other key. *)
Theorem duplicate_resource_types_overwrite rng model :
  (convertModelToPolicy rng model).2 = []
  ∧ ∀ k, Wire.Resources (convertModelToPolicy rng model).1 !! k
         = policyResources
             <$> last (filter (λ res, ValueString (Tf.Type_ res) = k)
                         (elems (Tf.Resources model))).
Proof.
  split.
  - by destruct (convertModelToPolicy_items rng model) as (_ & _ & ->).
  - intros k. rewrite convertModelToPolicy_Resources, setResource_lookup.
    destruct (last _); [done | apply lookup_empty].
Qed.

(** ** Conditions, wire to declarative *)

Lemma condition_values_acc (l : list any) (acc : list TString) :
  foldl (λ values val,
           match val with
           | any_string strVal => append values (StringValue strVal)
           | _ => values
           end)
        (Some acc) l
  = Some (acc ++ map StringValue (strings_of l)).
Proof.
  revert acc. induction l as [|v l IH]; intros acc; simpl.
  - by rewrite app_nil_r.
  - destruct v; try apply IH.
    unfold append. simpl. rewrite IH. unfold strings_of. simpl.
    by rewrite <- app_assoc.
Qed.

Lemma convertPolicyItem_Conditions item :
  Tf.Conditions (convertPolicyItem item).1
  = foldl setCondition ∅ (elems (Wire.Conditions item)).
Proof.
  simpl. apply foldl_fun_ext. intros m c. unfold setCondition.
  destruct (c !! "type") as [[]|]; try done.
  destruct (c !! "values") as [[]|]; try done.
  unfold make. by rewrite condition_values_acc.
Qed.

Lemma strings_of_elem (vs : list any) (s : string) :
  s ∈ strings_of vs ↔ any_string s ∈ vs.
Proof.
  unfold strings_of. rewrite list_elem_of_omap. split.
  - intros (v & Hv & Hs). destruct v; try done. by injection Hs as ->.
  - intros Hs. by exists (any_string s).
Qed.

(** A key of the result comes from an entry with a string type and a list
    of values. *)
Lemma setCondition_origin l m k values :
  foldl setCondition m l !! k = Some values →
  m !! k = Some values
  ∨ ∃ c vs, c ∈ l ∧ c !! "type" = Some (any_string k)
            ∧ c !! "values" = Some (any_slice vs)
            ∧ values = Some (map StringValue (strings_of (elems vs))).
Proof.
  revert m. induction l as [|a l IH]; intros m; simpl; [by left|].
  intros H. apply IH in H as [H|(c & vs & Hc & H)].
  - unfold setCondition in H.
    destruct (a !! "type") as [[| | |t| | |]|] eqn:Ht; try by left.
    destruct (a !! "values") as [[| | | | |vs|]|] eqn:Hv; try by left.
    destruct (decide (t = k)) as [->|Hne].
    + rewrite lookup_insert_eq in H. injection H as <-.
      right. exists a, vs. split; [by left | done].
    + rewrite lookup_insert_ne in H by done. by left.
  - right. exists c, vs. split; [by right | done].
Qed.

(** Every such entry makes its type a key of the result. *)
Lemma setCondition_present l m k :
  is_Some (m !! k)
  ∨ (∃ c vs, c ∈ l ∧ c !! "type" = Some (any_string k)
             ∧ c !! "values" = Some (any_slice vs)) →
  is_Some (foldl setCondition m l !! k).
Proof.
  revert m. induction l as [|a l IH]; intros m; simpl.
  - intros [H|(c & vs & Hc & _)]; [done | by apply elem_of_nil in Hc].
  - intros H. apply IH.
    destruct H as [H|(c & vs & Hc & Ht & Hv)].
    + left. unfold setCondition.
      destruct (a !! "type") as [[| | |t| | |]|]; try done.
      destruct (a !! "values") as [[| | | | |vs|]|]; try done.
      destruct (decide (t = k)) as [->|Hne].
      * by rewrite lookup_insert_eq.
      * by rewrite lookup_insert_ne.
    + apply elem_of_cons in Hc as [->|Hc].
      * left. unfold setCondition. rewrite Ht, Hv. by rewrite lookup_insert_eq.
      * right. by exists c, vs.
Qed.

(** C7, as stated, fails: a condition entry whose value list holds a
    non-string value next to a string keeps its key; only the non-string
    value is dropped. *)
Lemma malformed_condition_values_counterexample :
  (∃ c, c ∈ elems (Wire.Conditions mixed_values_item)
        ∧ c !! "type" = Some (any_string "ip-range")
        ∧ c !! "values"
          = Some (any_slice (Some [any_string "10.0.0.1"; any_float64 5])))
  ∧ Tf.Conditions (convertPolicyItem mixed_values_item).1 !! "ip-range"
    = Some (Some [StringValue "10.0.0.1"]).
Proof.
  split.
  - eexists. split; [by left|]. split; vm_compute; reflexivity.
  - vm_compute. reflexivity.
Qed.

(** C7, amended: the conditions of a wire item are flattened into a mapping
    whose keys are exactly the types of the entries that have a string
    [type] and a list of [values] (any other entry is skipped and adds no
    key); the list under a key is made of the string values of such an
    entry, its non-string values being dropped one by one while the key is
    kept; no entry makes the translation report a diagnostic. *)
Theorem conditions_flattened_with_tolerance :
  (∀ item k,
     is_Some (Tf.Conditions (convertPolicyItem item).1 !! k)
     ↔ ∃ c vs, c ∈ elems (Wire.Conditions item)
               ∧ c !! "type" = Some (any_string k)
               ∧ c !! "values" = Some (any_slice vs))
  ∧ (∀ item k values,
       Tf.Conditions (convertPolicyItem item).1 !! k = Some values →
       ∃ c vs, c ∈ elems (Wire.Conditions item)
               ∧ c !! "type" = Some (any_string k)
               ∧ c !! "values" = Some (any_slice vs)
               ∧ values = Some (map StringValue (strings_of (elems vs))))
  ∧ (∀ vs s, s ∈ strings_of vs ↔ any_string s ∈ vs)
  ∧ (∀ item, (convertPolicyItem item).2 = []).
Proof.
  split; [|split; [|split]].
  - intros item k. rewrite convertPolicyItem_Conditions. split.
    + intros [values H]. apply setCondition_origin in H as [H|(c & vs & Hc & Ht & Hv & _)].
      * by rewrite lookup_empty in H.
      * by exists c, vs.
    + intros H. apply setCondition_present. by right.
  - intros item k values. rewrite convertPolicyItem_Conditions.
    intros H. apply setCondition_origin in H as [H|H]; [|done].
    by rewrite lookup_empty in H.
  - apply strings_of_elem.
  - apply convertPolicyItem_diags.
Qed.

Lemma conditions_flattened_with_tolerance_witness :
  ∃ c vs, c ∈ elems (Wire.Conditions mixed_values_item)
          ∧ c !! "type" = Some (any_string "ip-range")
          ∧ c !! "values" = Some (any_slice vs)
          ∧ Some [StringValue "10.0.0.1"]
            = Some (map StringValue (strings_of (elems vs))).
Proof.
  apply (proj1 (proj2 conditions_flattened_with_tolerance) mixed_values_item "ip-range").
  vm_compute. reflexivity.
Defined.

(** ** Round trip through the wire model *)

Lemma conditions_loop_acc (l : list (string * slice TString)) acc :
  foldl (λ conditions '(condType, condValues),
           let values := collect ValueString condValues in
           let condition : gmap string any :=
             <["values" := any_strings values]> (<["type" := any_string condType]> ∅) in
           append conditions condition)
        (Some acc) l
  = Some (acc ++ map declaredCondition l).
Proof.
  revert acc. induction l as [|[k v] l IH]; intros acc; simpl.
  - by rewrite app_nil_r.
  - unfold append at 2. simpl. rewrite IH, collect_map. by rewrite <- app_assoc.
Qed.

Lemma convertPolicyItemModel_Conditions rng itemModel :
  elems (Wire.Conditions (convertPolicyItemModel rng itemModel).1)
  = if decide (0 < size (Tf.Conditions itemModel))%nat
    then map declaredCondition (rng (Tf.Conditions itemModel)) else [].
Proof.
  simpl. destruct (decide _); [|done].
  unfold make. by rewrite conditions_loop_acc.
Qed.

(** [convertPolicyItem] does not take a [[]string] for a list of values. *)
Lemma setCondition_declared m entry : setCondition m (declaredCondition entry) = m.
Proof.
  unfold setCondition, declaredCondition.
  rewrite lookup_insert_ne by done. rewrite lookup_insert_eq.
  by rewrite lookup_insert_eq.
Qed.

Lemma setCondition_declared_all m l :
  foldl setCondition m (map declaredCondition l) = m.
Proof.
  induction l as [|entry l IH] using rev_ind; [done|].
  rewrite map_app. simpl. by rewrite foldl_snoc, IH, setCondition_declared.
Qed.

Lemma filter_allowed_all (l : list TString) :
  filter (λ a, Wire.IsAllowed a = true) (map (λ perm, allow (ValueString perm)) l)
  = map (λ perm, allow (ValueString perm)) l.
Proof.
  induction l as [|a l IH]; [done|]. simpl.
  rewrite filter_cons_True by done. by rewrite IH.
Qed.

Lemma wire_list_back (vs : slice TString) :
  collect StringValue
    (if decide (0 < len vs)%nat then collect ValueString vs else None)
  = known_list vs.
Proof.
  unfold known_list. destruct (decide _) as [H|H].
  - rewrite !collect_map. simpl. by rewrite map_map.
  - rewrite collect_map, (len_zero_elems _ H). done.
Qed.

Lemma item_roundtrip rng itemModel :
  (convertPolicyItem (convertPolicyItemModel rng itemModel).1).1
  = known_item_sans_conditions itemModel.
Proof.
  pose proof (convertPolicyItem_Permissions (convertPolicyItemModel rng itemModel).1) as Hp.
  pose proof (convertPolicyItem_Conditions (convertPolicyItemModel rng itemModel).1) as Hc.
  rewrite convertPolicyItemModel_Accesses, filter_allowed_all, map_map in Hp.
  rewrite convertPolicyItemModel_Conditions in Hc.
  assert (Tf.Conditions (convertPolicyItem (convertPolicyItemModel rng itemModel).1).1 = ∅)
    as Hc'.
  { rewrite Hc. destruct (decide _); [apply setCondition_declared_all | done]. }
  clear Hc.
  destruct (convertPolicyItem (convertPolicyItemModel rng itemModel).1).1 eqn:E.
  simpl in Hp, Hc'. subst.
  unfold known_item_sans_conditions.
  apply (f_equal Tf.Users) in E as Hu. apply (f_equal Tf.Groups) in E as Hg.
  apply (f_equal Tf.Roles) in E as Hr. apply (f_equal Tf.DelegateAdmin) in E as Hd.
  simpl in Hu, Hg, Hr, Hd. rewrite wire_list_back in Hu, Hg, Hr.
  by subst.
Qed.

Lemma setResource_list_to_map (l : list Tf.RangerPolicyResourcesModel) :
  NoDup (map (λ res, ValueString (Tf.Type_ res)) l) →
  foldl setResource ∅ l = list_to_map (map resourceEntry l).
Proof.
  induction l as [|res l IH] using rev_ind; [done|].
  rewrite !map_app. simpl. intros Hnd.
  apply NoDup_app in Hnd as (Hl & Hfresh & _).
  rewrite foldl_snoc, IH by done. unfold setResource.
  change (resourceEntry res) with (ValueString (Tf.Type_ res), policyResources res).
  rewrite list_to_map_snoc; [done|].
  intros Hin. apply (Hfresh (ValueString (Tf.Type_ res))); [|by left].
  rewrite <- list_fmap_compose in Hin. exact Hin.
Qed.

Lemma resource_roundtrip res : resourceModel (resourceEntry res) = known_resource res.
Proof.
  unfold resourceModel, resourceEntry, known_resource, known_list. simpl.
  by rewrite map_map.
Qed.

Lemma resources_roundtrip rng rng' model :
  range_ok rng' →
  NoDup (declared_types model) →
  elems (Tf.Resources (roundtrip rng rng' model))
    ≡ₚ map known_resource (elems (Tf.Resources model)).
Proof.
  intros Hrng Hnd. unfold roundtrip.
  rewrite convertPolicyToModel_Resources, convertModelToPolicy_Resources.
  rewrite setResource_list_to_map by exact Hnd. simpl.
  rewrite (Hrng _), map_to_list_to_map.
  - rewrite map_map. rewrite (map_ext _ known_resource resource_roundtrip). done.
  - rewrite <- list_fmap_compose. exact Hnd.
Qed.

Lemma convertModelToPolicy_scalars rng model :
  let policy := (convertModelToPolicy rng model).1 in
  Wire.ID policy = 0
  ∧ Wire.Name policy = ValueString (Tf.Name model)
  ∧ Wire.Service policy = ValueString (Tf.Service model)
  ∧ Wire.Description policy = ValueString (Tf.Description model)
  ∧ Wire.IsEnabled policy = ValueBool (Tf.IsEnabled model)
  ∧ Wire.IsAuditEnabled policy = ValueBool (Tf.IsAuditEnabled model)
  ∧ Wire.PolicyType policy = ValueInt64 (Tf.PolicyType model).
Proof.
  unfold convertModelToPolicy.
  destruct (decide (0 < len (Tf.PolicyItems model))%nat);
    destruct (decide (0 < len (Tf.DenyItems model))%nat);
    repeat match goal with
           | |- context [convertItems ?c ?b ?l ?d] => destruct (convertItems c b l d)
           end;
    simpl; by destruct (Tf.Description model).
Qed.

Lemma convertPolicyToModel_scalars rng policy :
  let model := (convertPolicyToModel rng policy).1 in
  Tf.ID model = StringValue (pretty (Wire.ID policy))
  ∧ Tf.Name model = StringValue (Wire.Name policy)
  ∧ Tf.Service model = StringValue (Wire.Service policy)
  ∧ Tf.Description model = StringValue (Wire.Description policy)
  ∧ Tf.IsEnabled model = BoolValue (Wire.IsEnabled policy)
  ∧ Tf.IsAuditEnabled model = BoolValue (Wire.IsAuditEnabled policy)
  ∧ Tf.PolicyType model = Int64Value (Wire.PolicyType policy).
Proof.
  unfold convertPolicyToModel.
  repeat match goal with
         | |- context [convertItems ?c ?b ?l ?d] => destruct (convertItems c b l d)
         end.
  done.
Qed.

Lemma items_roundtrip (rng : nat → MapRange (slice TString)) (items : slice Tf.RangerPolicyItemModel) :
  map (λ a, (convertPolicyItem a).1)
    (elems (if decide (0 < len items)%nat
            then Some (imap (λ i a, (convertPolicyItemModel (rng i) a).1) (elems items))
            else None))
  = map known_item_sans_conditions (elems items).
Proof.
  destruct (decide _) as [H|H]; simpl.
  - change (map ?f ?l) with (f <$> l). rewrite fmap_imap.
    rewrite (imap_ext _ (const known_item_sans_conditions)); [by rewrite imap_const|].
    intros i a _. simpl. apply item_roundtrip.
  - by rewrite (len_zero_elems _ H).
Qed.

(** C1, as stated, fails on the conditions: a valid policy whose rule item
    declares a condition comes back from the two translations with that
    item's conditions empty, because the values were stored as a [[]string]
    and [convertPolicyItem] takes a [[]interface{}] only. *)
Lemma roundtrip_conditions_counterexample :
  NoDup (declared_types conditioned_policy)
  ∧ Tf.Conditions <$> elems (Tf.PolicyItems conditioned_policy)
    = [ {[ "ip-range" := Some [StringValue "10.0.0.0/8"] ]} ]
  ∧ Tf.Conditions
      <$> elems (Tf.PolicyItems (roundtrip (λ _, map_to_list) map_to_list conditioned_policy))
    = [ ∅ ]
  ∧ Tf.Conditions
      <$> elems (Tf.PolicyItems (roundtrip (λ _, map_to_list) map_to_list conditioned_policy))
    ≠ Tf.Conditions <$> elems (Tf.PolicyItems conditioned_policy).
Proof.
  assert (Tf.Conditions
            <$> elems (Tf.PolicyItems
                         (roundtrip (λ _, map_to_list) map_to_list conditioned_policy))
          = [ ∅ ]) as Hback by (vm_compute; reflexivity).
  split; [|split; [|split]].
  - apply NoDup_singleton.
  - reflexivity.
  - exact Hback.
  - rewrite Hback. simpl. intros Heq.
    apply (f_equal (λ l : list (gmap string (slice TString)),
                      head l ≫= (λ m, m !! "ip-range"))) in Heq.
    simpl in Heq. rewrite lookup_empty, lookup_singleton_eq in Heq. discriminate.
Qed.

(** C1, amended: for every declarative policy without duplicate resource
    types, translating to the wire model and straight back yields, whatever
    the iteration order of the maps: name, service, description, flags and
    policy type with the known value of the declared field (null and unknown
    read as "", false, 0); resource entries that are a permutation of the
    declared ones; allow and deny items in the declared order with the same
    users, groups, roles, permissions (as non-nil lists) and delegate_admin;
    but every rule item's conditions empty.  The id comes back as "0". *)
Theorem roundtrip_preserves_all_but_conditions rng rng' model :
  range_ok rng' →
  NoDup (declared_types model) →
  Tf.Name (roundtrip rng rng' model) = known (Tf.Name model)
  ∧ Tf.Service (roundtrip rng rng' model) = known (Tf.Service model)
  ∧ Tf.Description (roundtrip rng rng' model) = known (Tf.Description model)
  ∧ Tf.IsEnabled (roundtrip rng rng' model) = known_bool (Tf.IsEnabled model)
  ∧ Tf.IsAuditEnabled (roundtrip rng rng' model) = known_bool (Tf.IsAuditEnabled model)
  ∧ Tf.PolicyType (roundtrip rng rng' model) = known_int64 (Tf.PolicyType model)
  ∧ elems (Tf.Resources (roundtrip rng rng' model))
      ≡ₚ map known_resource (elems (Tf.Resources model))
  ∧ Tf.PolicyItems (roundtrip rng rng' model)
    = Some (map known_item_sans_conditions (elems (Tf.PolicyItems model)))
  ∧ Tf.DenyItems (roundtrip rng rng' model)
    = Some (map known_item_sans_conditions (elems (Tf.DenyItems model)))
  ∧ Tf.ID (roundtrip rng rng' model) = StringValue "0".
Proof.
  intros Hrng Hnd.
  pose proof (resources_roundtrip rng rng' model Hrng Hnd) as Hres.
  unfold roundtrip in *.
  destruct (convertPolicyToModel_scalars rng' (convertModelToPolicy rng model).1)
    as (-> & -> & -> & -> & -> & -> & ->).
  destruct (convertModelToPolicy_scalars rng model)
    as (-> & -> & -> & -> & -> & -> & ->).
  destruct (convertPolicyToModel_items rng' (convertModelToPolicy rng model).1)
    as (-> & -> & _).
  destruct (convertModelToPolicy_items rng model) as (-> & -> & _).
  rewrite (items_roundtrip rng (Tf.PolicyItems model)).
  rewrite (items_roundtrip (λ i, rng (len (Tf.PolicyItems model) + i)%nat)
             (Tf.DenyItems model)).
  repeat split; done.
Qed.

Lemma roundtrip_preserves_all_but_conditions_witness :
  Tf.Name (roundtrip (λ _, map_to_list) map_to_list conditioned_policy)
    = StringValue "finance_reports_access"
  ∧ Tf.PolicyItems (roundtrip (λ _, map_to_list) map_to_list conditioned_policy)
    = Some [known_item_sans_conditions conditioned_item].
Proof.
  assert (range_ok (map_to_list : MapRange Wire.PolicyResources)) as Hrng
    by (intros m; reflexivity).
  assert (NoDup (declared_types conditioned_policy)) as Hnd
    by (apply NoDup_singleton).
  destruct (roundtrip_preserves_all_but_conditions
              (λ _, map_to_list) map_to_list conditioned_policy Hrng Hnd)
    as (Hname & _ & _ & _ & _ & _ & _ & Hitems & _).
  split; [exact Hname | exact Hitems].
Defined.

Lemma strings_of_strings (l : list TString) :
  strings_of (map (λ v, any_string (ValueString v)) l) = map ValueString l.
Proof. induction l as [|v l IH]; [done|]. unfold strings_of. simpl. f_equal. exact IH. Qed.

Lemma setCondition_decoded m entry :
  setCondition m (decodedCondition entry) = <[entry.1 := known_list entry.2]> m.
Proof.
  unfold setCondition, decodedCondition.
  rewrite lookup_insert_ne by done. rewrite lookup_insert_eq.
  rewrite lookup_insert_eq. simpl.
  by rewrite strings_of_strings, map_map.
Qed.

(** In that form [convertPolicyItem] recovers every declared condition. *)
Lemma decoded_conditions_recovered (rng : MapRange (slice TString))
    (declared : gmap string (slice TString)) (item : Wire.PolicyItem) :
  range_ok rng →
  elems (Wire.Conditions item) = map decodedCondition (rng declared) →
  Tf.Conditions (convertPolicyItem item).1 = known_list <$> declared.
Proof.
  intros Hrng Hitem. rewrite convertPolicyItem_Conditions, Hitem.
  assert (NoDup (rng declared).*1) as Hnd
    by (rewrite (Hrng declared); apply NoDup_fst_map_to_list).
  rewrite <- (list_to_map_to_list declared) at 2.
  rewrite <- (list_to_map_proper _ _ Hnd (Hrng declared)).
  rewrite <- list_to_map_fmap.
  clear Hitem. induction (rng declared) as [|[k v] l IH] using rev_ind; [done|].
  rewrite fmap_app in Hnd. apply NoDup_app in Hnd as (Hl & Hfresh & _).
  rewrite map_app, fmap_app. simpl.
  rewrite foldl_snoc, setCondition_decoded, IH by done. simpl.
  rewrite list_to_map_snoc; [done|].
  intros Hin. apply (Hfresh k); [|by left].
  rewrite <- list_fmap_compose in Hin.
  rewrite list_elem_of_fmap in Hin. destruct Hin as ([k' v'] & -> & Hin).
  apply list_elem_of_fmap. by exists (k', v').
Qed.

(** ** Diagnostics of the reconciler *)

Lemma AddError_elem diags summary detail :
  NewErrorDiagnostic summary detail ∈ AddError diags summary detail.
Proof.
  unfold AddError, Append. simpl. destruct (decide _) as [H|H]; [done|].
  apply elem_of_app. right. by left.
Qed.

Lemma HasError_elem diags d : d ∈ diags → is_error d = true → HasError diags = true.
Proof.
  intros Hd He. unfold HasError. apply existsb_exists. exists d.
  split; [by apply list_elem_of_In | done].
Qed.

Lemma HasError_AddError diags summary detail :
  HasError (AddError diags summary detail) = true.
Proof. eapply HasError_elem; [apply AddError_elem | done]. Qed.

(** ** Name lookup of the data source *)

(** C2: once the search endpoint has answered 200 with a decodable list,
    the lookup returns without error only a policy of that list whose name
    equals the requested name exactly (the first such one), and when no
    element has exactly that name it returns the empty policy with the
    "Ranger Policy Not Found" error. *)
Theorem name_lookup_is_exact pf client service name response policies :
  http_NewRequest_err pf "GET" (URL (nameSearchRequest pf client service name)) = None →
  Do client (nameSearchRequest pf client service name) = inr response →
  StatusCode response = StatusOK →
  DecodePolicies response = inr policies →
  (HasError (getPolicyByServiceAndName pf client service name).1.2 = false →
   (getPolicyByServiceAndName pf client service name).1.1 ∈ elems policies
   ∧ Wire.Name (getPolicyByServiceAndName pf client service name).1.1 = name)
  ∧ ((∀ policy, policy ∈ elems policies → Wire.Name policy ≠ name) →
     (getPolicyByServiceAndName pf client service name).1.1 = Wire.zero
     ∧ (getPolicyByServiceAndName pf client service name).1.2
       = [notFoundByName service name]
     ∧ HasError (getPolicyByServiceAndName pf client service name).1.2 = true)
  ∧ ((∃ policy, policy ∈ elems policies ∧ Wire.Name policy = name) →
     (getPolicyByServiceAndName pf client service name).1.2 = []).
Proof.
  intros Hnew Hdo Hstatus Hdecode.
  unfold getPolicyByServiceAndName, http_NewRequest.
  simpl in Hnew. rewrite Hnew.
  change (Header_Set _ _ (Header_Set _ _ (set_RawQuery _ _)))
    with (nameSearchRequest pf client service name).
  rewrite Hdo, Hstatus, Hdecode.
  rewrite bool_decide_eq_false_2 by (intros H; by apply H).
  destruct (list_find _ (elems policies)) as [[i policy]|] eqn:Hfind; simpl.
  - apply list_find_Some in Hfind as (Hi & Hname & _).
    apply list_elem_of_lookup_2 in Hi.
    split; [done|]. split; [|done].
    intros Hnone. by destruct (Hnone policy Hi).
  - apply list_find_None in Hfind. rewrite Forall_forall in Hfind.
    split; [done|]. split; [done|].
    intros (policy & Hin & Hname). by destruct (Hfind policy Hin).
Qed.

Lemma name_lookup_is_exact_witness :
  (getPolicyByServiceAndName reference_platform (fixed_server foo_v2_response)
     "hive" "foo").1.1 = Wire.zero
  ∧ (getPolicyByServiceAndName reference_platform (fixed_server foo_v2_response)
       "hive" "foo").1.2 = [notFoundByName "hive" "foo"]
  ∧ HasError (getPolicyByServiceAndName reference_platform (fixed_server foo_v2_response)
                "hive" "foo").1.2 = true.
Proof.
  apply (name_lookup_is_exact reference_platform (fixed_server foo_v2_response)
           "hive" "foo" foo_v2_response (Some [named "foo_v2"]));
    try reflexivity.
  intros policy Hin. apply list_elem_of_singleton in Hin. subst policy.
  simpl. discriminate.
Defined.

(** ** Read *)

(** C4: a Read that has an id and gets an answer from the server removes
    the resource without reporting an error when the status is 404, and for
    any other status than 200 reports the error "API returned unexpected
    status code: <status>" and hands back the prior state as it was. *)
Theorem read_not_found_and_api_error pf client req resp response :
  HasError (Append (Diagnostics_ resp) (Get_diags (Read_State req))) = false →
  IsNull (Tf.ID (Get_value (Read_State req))) = false →
  http_NewRequest_err pf "GET"
    (URL (readRequest client (ValueString (Tf.ID (Get_value (Read_State req)))))) = None →
  Do client (readRequest client (ValueString (Tf.ID (Get_value (Read_State req)))))
    = inr response →
  (StatusCode response = StatusNotFound →
   State (Read pf client req resp).1 = None
   ∧ Diagnostics_ (Read pf client req resp).1
     = Append (Diagnostics_ resp) (Get_diags (Read_State req))
   ∧ HasError (Diagnostics_ (Read pf client req resp).1) = false)
  ∧ (StatusCode response ≠ StatusNotFound →
     StatusCode response ≠ StatusOK →
     State (Read pf client req resp).1 = State resp
     ∧ unexpectedStatus "Error Reading Ranger Policy" (StatusCode response)
         ∈ Diagnostics_ (Read pf client req resp).1
     ∧ HasError (Diagnostics_ (Read pf client req resp).1) = true)
  ∧ (Read pf client req resp).2
    = [readRequest client (ValueString (Tf.ID (Get_value (Read_State req))))].
Proof.
  intros Hdiags Hid Hnew Hdo.
  unfold Read, http_NewRequest. simpl in Hnew |- *.
  rewrite Hdiags, Hid, Hnew.
  change (Header_Set _ _ (Header_Set _ _ _))
    with (readRequest client (ValueString (Tf.ID (Get_value (Read_State req))))).
  rewrite Hdo.
  destruct (decide (StatusCode response = StatusNotFound)) as [H404|H404].
  - rewrite bool_decide_eq_true_2 by done. simpl.
    split; [done|]. split; [|done]. intros Hne. by destruct Hne.
  - rewrite bool_decide_eq_false_2 by done.
    destruct (decide (StatusCode response = StatusOK)) as [H200|H200].
    + rewrite bool_decide_eq_false_2 by (intros H; by apply H).
      split; [done|]. split; [done|].
      destruct (DecodePolicy response) as [err|policy]; [done|].
      destruct (convertPolicyToModel _ policy) as [model diags].
      unfold State_Set.
      repeat match goal with
             | |- context [if ?b then _ else _] => destruct b
             end; done.
    + rewrite bool_decide_eq_true_2 by done. simpl.
      split; [done|]. split; [|done]. intros _ _.
      split; [done|]. split; [apply AddError_elem | apply HasError_AddError].
Qed.

Lemma read_not_found_and_api_error_witness :
  State (Read reference_platform (fixed_server (status_response 404))
           {| Read_State := stored_state |} prior_response).1 = None
  ∧ State (Read reference_platform (fixed_server (status_response 500))
             {| Read_State := stored_state |} prior_response).1
    = State prior_response
  ∧ HasError (Diagnostics_
                (Read reference_platform (fixed_server (status_response 500))
                   {| Read_State := stored_state |} prior_response).1) = true.
Proof.
  split; [|split].
  - apply (read_not_found_and_api_error reference_platform
             (fixed_server (status_response 404)) {| Read_State := stored_state |}
             prior_response (status_response 404)); reflexivity.
  - apply (read_not_found_and_api_error reference_platform
             (fixed_server (status_response 500)) {| Read_State := stored_state |}
             prior_response (status_response 500)); try reflexivity; discriminate.
  - apply (read_not_found_and_api_error reference_platform
             (fixed_server (status_response 500)) {| Read_State := stored_state |}
             prior_response (status_response 500)); try reflexivity; discriminate.
Defined.

(** ** Create *)

(** C3: when the POST is answered 200 or 201 with a decodable policy and
    the state is set, the state written back is the plan with its id alone
    replaced by the id of the created policy; every other field is the
    plan's, whatever the server echoed. *)
Theorem create_records_only_the_id pf client req resp policyJSON response createdPolicy :
  HasError (Append (Diagnostics_ resp) (Get_diags (Create_Plan req))) = false →
  json_Marshal pf
    (convertModelToPolicy (conditions_order pf) (Get_value (Create_Plan req))).1
    = inr policyJSON →
  http_NewRequest_err pf "POST" (URL (createRequest client policyJSON)) = None →
  Do client (createRequest client policyJSON) = inr response →
  StatusCode response = StatusOK ∨ StatusCode response = StatusCreated →
  DecodePolicy response = inr createdPolicy →
  HasError (State_Set_diags pf
              (Tf.set_ID (StringValue (pretty (Wire.ID createdPolicy)))
                 (Get_value (Create_Plan req)))) = false →
  ∃ state,
    State (Create pf client req resp).1 = Some state
    ∧ Tf.ID state = StringValue (pretty (Wire.ID createdPolicy))
    ∧ Tf.Name state = Tf.Name (Get_value (Create_Plan req))
    ∧ Tf.Service state = Tf.Service (Get_value (Create_Plan req))
    ∧ Tf.Description state = Tf.Description (Get_value (Create_Plan req))
    ∧ Tf.IsEnabled state = Tf.IsEnabled (Get_value (Create_Plan req))
    ∧ Tf.IsAuditEnabled state = Tf.IsAuditEnabled (Get_value (Create_Plan req))
    ∧ Tf.PolicyType state = Tf.PolicyType (Get_value (Create_Plan req))
    ∧ Tf.Resources state = Tf.Resources (Get_value (Create_Plan req))
    ∧ Tf.PolicyItems state = Tf.PolicyItems (Get_value (Create_Plan req))
    ∧ Tf.DenyItems state = Tf.DenyItems (Get_value (Create_Plan req)).
Proof.
  intros Hdiags Hjson Hnew Hdo Hstatus Hdecode Hset.
  exists (Tf.set_ID (StringValue (pretty (Wire.ID createdPolicy)))
            (Get_value (Create_Plan req))).
  split; [|done].
  unfold Create, http_NewRequest. simpl in Hnew |- *. rewrite Hdiags.
  pose proof (convertModelToPolicy_items (conditions_order pf)
                (Get_value (Create_Plan req))) as (_ & _ & Hnone).
  destruct (convertModelToPolicy _ _) as [policy diags]. simpl in Hjson, Hnone.
  subst diags. rewrite Append_nil, Hdiags, Hjson, Hnew.
  change (Header_Set _ _ (Header_Set _ _ (Header_Set _ _ _)))
    with (createRequest client policyJSON).
  rewrite Hdo, Hdecode.
  assert (bool_decide (StatusCode response ≠ StatusOK)
          && bool_decide (StatusCode response ≠ StatusCreated) = false) as ->.
  { destruct Hstatus as [-> | ->]; reflexivity. }
  unfold State_Set. rewrite Hset. done.
Qed.

Lemma create_records_only_the_id_witness :
  ∃ state,
    State (Create reference_platform (fixed_server created_response)
             {| Create_Plan := {| Get_value := conditioned_policy; Get_diags := [] |} |}
             {| State := None; Diagnostics_ := [] |}).1 = Some state
    ∧ Tf.ID state = StringValue "42"
    ∧ Tf.Name state = StringValue "finance_reports_access".
Proof.
  destruct (create_records_only_the_id reference_platform (fixed_server created_response)
              {| Create_Plan := {| Get_value := conditioned_policy; Get_diags := [] |} |}
              {| State := None; Diagnostics_ := [] |}
              "{}" created_response (Wire.set_ID 42 (named "normalized-by-the-server")))
    as (state & Hstate & Hid & Hname & _);
    try reflexivity.
  - right. reflexivity.
  - exists state. split; [exact Hstate|]. split; [exact Hid | exact Hname].
Defined.

(** ** Update *)

Example ascii_Sscanf_d_number : ascii_Sscanf_d "42" = (42, None).
Proof. reflexivity. Qed.

Example ascii_Sscanf_d_negative : ascii_Sscanf_d " -7" = (-7, None).
Proof. reflexivity. Qed.

Example ascii_Sscanf_d_letters : ascii_Sscanf_d "abc" = (0, Some "expected integer").
Proof. reflexivity. Qed.

Example ascii_Sscanf_d_empty : ascii_Sscanf_d "" = (0, Some "EOF").
Proof. reflexivity. Qed.

Example ascii_Sscanf_d_sign_only : ascii_Sscanf_d "-" = (0, Some "EOF").
Proof. reflexivity. Qed.

(** An underscore ends the token like any other character. *)
Example ascii_Sscanf_d_underscore : ascii_Sscanf_d "1_000" = (1, None).
Proof. reflexivity. Qed.

Example ascii_Sscanf_d_overflow :
  ascii_Sscanf_d "9223372036854775808"
  = (0, Some ("strconv.ParseInt: parsing " +:+ quoted (String.list_ascii_of_string "9223372036854775808")
                +:+ ": value out of range")).
Proof. reflexivity. Qed.

Example ascii_Sscanf_d_min : ascii_Sscanf_d "-9223372036854775808" = (-9223372036854775808, None).
Proof. reflexivity. Qed.

(** The scan stops at the first character that is not a digit and does not
    ask for the end of the input. *)
Example ascii_Sscanf_d_prefix : ascii_Sscanf_d "12abc" = (12, None).
Proof. reflexivity. Qed.

(** X19: an Update whose id string [parseInt64] rejects hands no request to
    the client and hands back the state as it was; when the plan was read
    without error it reports "Could not parse policy ID"; and every request
    an Update does hand to the client is a PUT issued after [parseInt64]
    accepted the id. *)
Theorem update_rejects_unparseable_id pf client req resp :
  (∀ err,
     (parseInt64 pf (ValueString (Tf.ID (Get_value (Update_Plan req))))).2 = Some err →
     (Update pf client req resp).2 = []
     ∧ State (Update pf client req resp).1 = State resp
     ∧ (HasError (Append (Diagnostics_ resp) (Get_diags (Update_Plan req))) = false →
        couldNotParseID err ∈ Diagnostics_ (Update pf client req resp).1
        ∧ HasError (Diagnostics_ (Update pf client req resp).1) = true))
  ∧ (∀ request,
       request ∈ (Update pf client req resp).2 →
       Method request = "PUT"
       ∧ (parseInt64 pf (ValueString (Tf.ID (Get_value (Update_Plan req))))).2 = None).
Proof.
  pose proof (convertModelToPolicy_items (conditions_order pf)
                (Get_value (Update_Plan req))) as (_ & _ & Hnone).
  unfold Update, http_NewRequest.
  destruct (HasError (Diagnostics_ (resp_Append _ resp))) eqn:Hdiags; simpl in Hdiags.
  { split; [intros err _; split; [done|]; split; [done|]; by rewrite Hdiags
           | intros request Hin; by apply elem_of_nil in Hin]. }
  destruct (convertModelToPolicy _ _) as [policy diags]. simpl in Hnone. subst diags.
  simpl. rewrite Hdiags.
  destruct (parseInt64 pf _) as [id [err|]] eqn:Hparse; simpl.
  { split.
    - intros err' Herr. injection Herr as <-. split; [done|]. split; [done|].
      intros _. split; [apply AddError_elem | apply HasError_AddError].
    - intros request Hin. by apply elem_of_nil in Hin. }
  split; [done|]. intros request.
  destruct (json_Marshal pf _) as [err|policyJSON];
    [intros Hin; by apply elem_of_nil in Hin|].
  destruct (http_NewRequest_err pf _ _) as [err|];
    [intros Hin; by apply elem_of_nil in Hin|].
  assert (∀ r : Request, Method r = "PUT" → request ∈ [r] →
            Method request = "PUT" ∧ @None error = None) as Hone.
  { intros r Hr Hin. apply list_elem_of_singleton in Hin. by subst. }
  destruct (Do client _) as [err|response]; [by apply Hone|].
  destruct (bool_decide _); [by apply Hone|].
  destruct (DecodePolicy response) as [err|updatedPolicy]; [by apply Hone|].
  unfold State_Set.
  match goal with
  | |- context [if ?b then _ else _] => destruct b
  end; by apply Hone.
Qed.

Lemma update_rejects_unparseable_id_witness :
  (Update reference_platform (fixed_server (status_response 200))
     {| Update_Plan := unparseable_plan |} prior_response).2 = []
  ∧ State (Update reference_platform (fixed_server (status_response 200))
             {| Update_Plan := unparseable_plan |} prior_response).1
    = State prior_response
  ∧ couldNotParseID "expected integer"
      ∈ Diagnostics_ (Update reference_platform (fixed_server (status_response 200))
                        {| Update_Plan := unparseable_plan |} prior_response).1.
Proof.
  destruct (proj1 (update_rejects_unparseable_id reference_platform
                     (fixed_server (status_response 200))
                     {| Update_Plan := unparseable_plan |} prior_response)
              "expected integer") as (Htrace & Hstate & Hdiag).
  - reflexivity.
  - split; [exact Htrace|]. split; [exact Hstate|].
    apply Hdiag. reflexivity.
Defined.

Example decimal_integer_text_number : decimal_integer_text "-42" = true.
Proof. reflexivity. Qed.

Example decimal_integer_text_sign_only : decimal_integer_text "+" = false.
Proof. reflexivity. Qed.


(** ** Collected diagnostics *)

Lemma elem_of_Append (d : Diagnostic) (diags in_ : Diagnostics) :
  d ∈ Append diags in_ ↔ d ∈ diags ∨ d ∈ in_.
Proof.
  unfold Append. revert diags. induction in_ as [|x in_ IH]; intros diags; simpl.
  - split; [by left | intros [H|H]; [done | by apply elem_of_nil in H]].
  - rewrite IH. case_decide as Hx.
    + rewrite elem_of_cons. split.
      * intros [H|H]; [by left | by right; right].
      * intros [H|[->|H]]; [by left | by left | by right].
    + rewrite elem_of_app, list_elem_of_singleton, elem_of_cons. split.
      * intros [[H| ->]|H]; [by left | by right; left | by right; right].
      * intros [H|[->|H]]; [by left; left | by left; right | by right].
Qed.

Lemma HasError_Append (diags in_ : Diagnostics) :
  HasError (Append diags in_) = HasError diags || HasError in_.
Proof.
  apply eq_true_iff_eq. rewrite orb_true_iff. unfold HasError.
  rewrite !existsb_exists. split.
  - intros (d & Hd & He). apply list_elem_of_In, elem_of_Append in Hd as [Hd|Hd];
      [left | right]; exists d; by rewrite <- list_elem_of_In.
  - intros [(d & Hd & He)|(d & Hd & He)]; exists d;
      (split; [|done]); apply list_elem_of_In, elem_of_Append;
      [left | right]; by apply list_elem_of_In.
Qed.

Lemma HasError_Append_false (diags in_ : Diagnostics) :
  HasError diags = false → HasError in_ = false → HasError (Append diags in_) = false.
Proof. intros H1 H2. by rewrite HasError_Append, H1, H2. Qed.

(** ** Read, every outcome *)

(** X1: a Read that ends with an error hands back the state it was given;
    a Read that ends without error either removed the resource (the stored
    id is null and nothing was requested, or the server answered 404) or
    replaced the whole state by the translation of the policy a 200 answer
    carried; in every case at most one request went out. *)
Theorem read_outcomes pf client req resp :
  (HasError (Diagnostics_ (Read pf client req resp).1) = true →
   State (Read pf client req resp).1 = State resp)
  ∧ (HasError (Diagnostics_ (Read pf client req resp).1) = false →
     (State (Read pf client req resp).1 = None
      ∧ ((IsNull (Tf.ID (Get_value (Read_State req))) = true
          ∧ (Read pf client req resp).2 = [])
         ∨ ∃ response,
             Do client (readRequest client
                          (ValueString (Tf.ID (Get_value (Read_State req)))))
               = inr response
             ∧ StatusCode response = StatusNotFound))
     ∨ ∃ response policy,
         Do client (readRequest client
                      (ValueString (Tf.ID (Get_value (Read_State req)))))
           = inr response
         ∧ StatusCode response = StatusOK
         ∧ DecodePolicy response = inr policy
         ∧ State (Read pf client req resp).1
           = Some (convertPolicyToModel (resources_order pf) policy).1)
  ∧ (length (Read pf client req resp).2 ≤ 1)%nat.
Proof.
  unfold Read, http_NewRequest.
  destruct (HasError (Diagnostics_ (resp_Append _ resp))) eqn:Hstart; simpl in Hstart.
  { simpl. rewrite Hstart. split; [done|]. split; [done | lia]. }
  destruct (IsNull _) eqn:Hid.
  { simpl. rewrite Hstart. split; [done|]. split; [|lia].
    intros _. left. split; [done|]. by left. }
  destruct (http_NewRequest_err pf _ _) as [err|].
  { simpl. rewrite HasError_AddError. split; [done|]. split; [done | lia]. }
  change (Header_Set _ _ (Header_Set _ _ _))
    with (readRequest client (ValueString (Tf.ID (Get_value (Read_State req))))).
  destruct (Do client _) as [err|response] eqn:Hdo.
  { simpl. rewrite HasError_AddError. split; [done|]. split; [done | lia]. }
  destruct (bool_decide (StatusCode response = StatusNotFound)) eqn:H404.
  { apply bool_decide_eq_true_1 in H404. simpl. rewrite Hstart.
    split; [done|]. split; [|lia].
    intros _. left. split; [done|]. right. by exists response. }
  destruct (bool_decide (StatusCode response ≠ StatusOK)) eqn:H200.
  { simpl. rewrite HasError_AddError. split; [done|]. split; [done | lia]. }
  apply bool_decide_eq_false_1 in H200.
  assert (StatusCode response = StatusOK) as Hok
    by (destruct (decide (StatusCode response = StatusOK)); [done | by destruct H200]).
  destruct (DecodePolicy response) as [err|policy] eqn:Hdecode.
  { simpl. rewrite HasError_AddError. split; [done|]. split; [done | lia]. }
  pose proof (convertPolicyToModel_items (resources_order pf) policy) as (_ & _ & Hnone).
  destruct (convertPolicyToModel _ policy) as [model diags] eqn:Hconv.
  simpl in Hnone. subst diags.
  simpl in Hstart |- *. rewrite Hstart. unfold State_Set.
  destruct (HasError (State_Set_diags pf model)) eqn:Hset; simpl.
  - rewrite HasError_Append, Hset, orb_true_r. split; [done|]. split; [done | lia].
  - rewrite HasError_Append, Hstart, Hset. simpl. split; [done|]. split; [|lia].
    intros _. right. exists response, policy. repeat split; try done.
    by rewrite Hconv.
Qed.

Lemma read_outcomes_witness :
  State (Read reference_platform (fixed_server (status_response 500))
           {| Read_State := stored_state |} prior_response).1
  = State prior_response.
Proof.
  apply (proj1 (read_outcomes reference_platform (fixed_server (status_response 500))
                  {| Read_State := stored_state |} prior_response)).
  reflexivity.
Defined.

(** ** Create, Update and Delete, every outcome *)

Lemma not_not_eq_Z (x y : Z) : ¬ x ≠ y → x = y.
Proof. intros H. destruct (decide (x = y)); [done | by destruct H]. Qed.

(** Every way a Create can end. *)
Lemma Create_cases pf client req resp :
  (HasError (Diagnostics_ (Create pf client req resp).1) = true →
   State (Create pf client req resp).1 = State resp)
  ∧ (HasError (Diagnostics_ (Create pf client req resp).1) = false →
     ∃ policyJSON response createdPolicy,
       json_Marshal pf
         (convertModelToPolicy (conditions_order pf) (Get_value (Create_Plan req))).1
         = inr policyJSON
       ∧ (Create pf client req resp).2 = [createRequest client policyJSON]
       ∧ Do client (createRequest client policyJSON) = inr response
       ∧ (StatusCode response = StatusOK ∨ StatusCode response = StatusCreated)
       ∧ DecodePolicy response = inr createdPolicy
       ∧ State (Create pf client req resp).1
         = Some (Tf.set_ID (StringValue (pretty (Wire.ID createdPolicy)))
                   (Get_value (Create_Plan req))))
  ∧ (length (Create pf client req resp).2 ≤ 1)%nat.
Proof.
  pose proof (convertModelToPolicy_items (conditions_order pf)
                (Get_value (Create_Plan req))) as (_ & _ & Hnone).
  unfold Create, http_NewRequest.
  destruct (HasError (Diagnostics_ (resp_Append _ resp))) eqn:Hstart; simpl in Hstart.
  { simpl. rewrite Hstart. split; [done|]. split; [done | lia]. }
  destruct (convertModelToPolicy _ _) as [policy diags] eqn:Hconv.
  simpl in Hnone. subst diags. simpl. rewrite Hstart.
  destruct (json_Marshal pf policy) as [err|policyJSON] eqn:Hjson.
  { simpl. rewrite HasError_AddError. split; [done|]. split; [done | lia]. }
  destruct (http_NewRequest_err pf _ _) as [err|].
  { simpl. rewrite HasError_AddError. split; [done|]. split; [done | lia]. }
  change (Header_Set _ _ (Header_Set _ _ (Header_Set _ _ _)))
    with (createRequest client policyJSON).
  destruct (Do client _) as [err|response] eqn:Hdo.
  { simpl. rewrite HasError_AddError. split; [done|]. split; [done | lia]. }
  destruct (bool_decide (StatusCode response ≠ StatusOK)
            && bool_decide (StatusCode response ≠ StatusCreated)) eqn:Hstatus.
  { simpl. rewrite HasError_AddError. split; [done|]. split; [done | lia]. }
  assert (StatusCode response = StatusOK ∨ StatusCode response = StatusCreated) as Hok.
  { apply andb_false_iff in Hstatus as [H|H]; apply bool_decide_eq_false_1 in H;
      [left | right]; by apply not_not_eq_Z. }
  destruct (DecodePolicy response) as [err|createdPolicy] eqn:Hdecode.
  { simpl. rewrite HasError_AddError. split; [done|]. split; [done | lia]. }
  unfold State_Set.
  destruct (HasError (State_Set_diags pf _)) eqn:Hset; simpl.
  - rewrite HasError_Append, Hset, orb_true_r. split; [done|]. split; [done | lia].
  - rewrite HasError_Append, Hstart, Hset. simpl. split; [done|]. split; [|lia].
    intros _. exists policyJSON, response, createdPolicy. repeat split; done.
Qed.

(** X2: a Create that ends with an error hands back the state it was
    given; a Create that ends without error has sent exactly the POST of the
    marshalled policy, got 200 or 201 with a decodable policy, and set the
    state to the plan with the id the server issued; at most one request
    goes out in any case. *)
Theorem create_outcomes pf client req resp :
  (HasError (Diagnostics_ (Create pf client req resp).1) = true →
   State (Create pf client req resp).1 = State resp)
  ∧ (HasError (Diagnostics_ (Create pf client req resp).1) = false →
     ∃ policyJSON response createdPolicy,
       json_Marshal pf
         (convertModelToPolicy (conditions_order pf) (Get_value (Create_Plan req))).1
         = inr policyJSON
       ∧ (Create pf client req resp).2 = [createRequest client policyJSON]
       ∧ Do client (createRequest client policyJSON) = inr response
       ∧ (StatusCode response = StatusOK ∨ StatusCode response = StatusCreated)
       ∧ DecodePolicy response = inr createdPolicy
       ∧ State (Create pf client req resp).1
         = Some (Tf.set_ID (StringValue (pretty (Wire.ID createdPolicy)))
                   (Get_value (Create_Plan req))))
  ∧ (length (Create pf client req resp).2 ≤ 1)%nat.
Proof. apply Create_cases. Qed.

Lemma create_outcomes_witness :
  State (Create reference_platform (fixed_server (status_response 500))
           {| Create_Plan := {| Get_value := conditioned_policy; Get_diags := [] |} |}
           {| State := None; Diagnostics_ := [] |}).1 = None.
Proof.
  apply (proj1 (create_outcomes reference_platform (fixed_server (status_response 500))
                  {| Create_Plan := {| Get_value := conditioned_policy; Get_diags := [] |} |}
                  {| State := None; Diagnostics_ := [] |})).
  reflexivity.
Defined.

(** X3: an Update that ends with an error hands back the state it was
    given; an Update that ends without error has parsed the id, sent exactly
    the PUT of the marshalled policy carrying that id to the id's URL, got
    200 with a decodable body, and set the state to the plan itself, not to
    anything the server returned; at most one request goes out. *)
Theorem update_outcomes pf client req resp :
  (HasError (Diagnostics_ (Update pf client req resp).1) = true →
   State (Update pf client req resp).1 = State resp)
  ∧ (HasError (Diagnostics_ (Update pf client req resp).1) = false →
     ∃ id policyJSON response updatedPolicy,
       parseInt64 pf (ValueString (Tf.ID (Get_value (Update_Plan req)))) = (id, None)
       ∧ json_Marshal pf
           (Wire.set_ID id
              (convertModelToPolicy (conditions_order pf)
                 (Get_value (Update_Plan req))).1)
         = inr policyJSON
       ∧ (Update pf client req resp).2
         = [updateRequest client (ValueString (Tf.ID (Get_value (Update_Plan req))))
              policyJSON]
       ∧ Do client
           (updateRequest client (ValueString (Tf.ID (Get_value (Update_Plan req))))
              policyJSON) = inr response
       ∧ StatusCode response = StatusOK
       ∧ DecodePolicy response = inr updatedPolicy
       ∧ State (Update pf client req resp).1 = Some (Get_value (Update_Plan req)))
  ∧ (length (Update pf client req resp).2 ≤ 1)%nat.
Proof.
  pose proof (convertModelToPolicy_items (conditions_order pf)
                (Get_value (Update_Plan req))) as (_ & _ & Hnone).
  unfold Update, http_NewRequest.
  destruct (HasError (Diagnostics_ (resp_Append _ resp))) eqn:Hstart; simpl in Hstart.
  { simpl. rewrite Hstart. split; [done|]. split; [done | lia]. }
  destruct (convertModelToPolicy _ _) as [policy diags] eqn:Hconv.
  simpl in Hnone. subst diags. simpl. rewrite Hstart.
  destruct (parseInt64 pf _) as [id [err|]] eqn:Hparse.
  { simpl. rewrite HasError_AddError. split; [done|]. split; [done | lia]. }
  destruct (json_Marshal pf _) as [err|policyJSON] eqn:Hjson.
  { simpl. rewrite HasError_AddError. split; [done|]. split; [done | lia]. }
  destruct (http_NewRequest_err pf _ _) as [err|].
  { simpl. rewrite HasError_AddError. split; [done|]. split; [done | lia]. }
  change (Header_Set _ _ (Header_Set _ _ (Header_Set _ _ _)))
    with (updateRequest client (ValueString (Tf.ID (Get_value (Update_Plan req))))
            policyJSON).
  destruct (Do client _) as [err|response] eqn:Hdo.
  { simpl. rewrite HasError_AddError. split; [done|]. split; [done | lia]. }
  destruct (bool_decide (StatusCode response ≠ StatusOK)) eqn:Hstatus.
  { simpl. rewrite HasError_AddError. split; [done|]. split; [done | lia]. }
  apply bool_decide_eq_false_1, not_not_eq_Z in Hstatus.
  destruct (DecodePolicy response) as [err|updatedPolicy] eqn:Hdecode.
  { simpl. rewrite HasError_AddError. split; [done|]. split; [done | lia]. }
  unfold State_Set.
  destruct (HasError (State_Set_diags pf _)) eqn:Hset; simpl.
  - rewrite HasError_Append, Hset, orb_true_r. split; [done|]. split; [done | lia].
  - rewrite HasError_Append, Hstart, Hset. simpl. split; [done|]. split; [|lia].
    intros _. exists id, policyJSON, response, updatedPolicy. repeat split; done.
Qed.

Lemma update_outcomes_witness :
  State (Update reference_platform (fixed_server (status_response 404))
           {| Update_Plan := stored_state |} prior_response).1
  = State prior_response.
Proof.
  apply (proj1 (update_outcomes reference_platform (fixed_server (status_response 404))
                  {| Update_Plan := stored_state |} prior_response)).
  reflexivity.
Defined.



(** ** Lookup by id *)

(** X5: a lookup by id that the server answers 404 returns the empty policy
    with the error "Ranger Policy Not Found"; answered with any other status
    than 200 it returns the empty policy with the error carrying the status
    code; answered 200 with a decodable body it returns that policy and no
    diagnostic; a lookup returns a policy other than the empty one only in
    this last case. *)
Theorem lookup_by_id_outcomes pf client id response :
  http_NewRequest_err pf "GET" (URL (readRequest client id)) = None →
  Do client (readRequest client id) = inr response →
  (StatusCode response = StatusNotFound →
   (getPolicyByID pf client id).1
   = (Wire.zero,
      [NewErrorDiagnostic "Ranger Policy Not Found" ("No policy found with ID " +:+ id)]))
  ∧ (StatusCode response ≠ StatusNotFound → StatusCode response ≠ StatusOK →
     (getPolicyByID pf client id).1
     = (Wire.zero,
        [unexpectedStatus "Error Reading Ranger Policy" (StatusCode response)]))
  ∧ (∀ policy,
       StatusCode response = StatusOK → DecodePolicy response = inr policy →
       (getPolicyByID pf client id).1 = (policy, []))
  ∧ (HasError (getPolicyByID pf client id).1.2 = false →
     StatusCode response = StatusOK
     ∧ DecodePolicy response = inr (getPolicyByID pf client id).1.1)
  ∧ (getPolicyByID pf client id).2 = [readRequest client id].
Proof.
  intros Hnew Hdo. unfold getPolicyByID, http_NewRequest.
  simpl in Hnew. rewrite Hnew.
  change (Header_Set _ _ (Header_Set _ _ _)) with (readRequest client id).
  rewrite Hdo.
  destruct (decide (StatusCode response = StatusNotFound)) as [H404|H404].
  { rewrite bool_decide_eq_true_2 by done. simpl.
    split; [done|]. split; [by intros H|]. split; [|done].
    intros policy Hok. rewrite H404 in Hok. discriminate. }
  rewrite bool_decide_eq_false_2 by done.
  destruct (decide (StatusCode response = StatusOK)) as [H200|H200].
  - rewrite bool_decide_eq_false_2 by (intros H; by apply H).
    split; [done|]. split; [done|].
    destruct (DecodePolicy response) as [err|policy]; simpl.
    + split; [by intros policy _ H|]. done.
    + split; [by intros policy' _ [= ->]|]. done.
  - rewrite bool_decide_eq_true_2 by done. simpl.
    split; [done|]. split; [done|]. split; [by intros policy H|]. done.
Qed.

Lemma lookup_by_id_outcomes_witness :
  (getPolicyByID reference_platform (fixed_server (status_response 404)) "42").1
  = (Wire.zero,
     [NewErrorDiagnostic "Ranger Policy Not Found" "No policy found with ID 42"]).
Proof.
  apply (lookup_by_id_outcomes reference_platform (fixed_server (status_response 404))
           "42" (status_response 404)); reflexivity.
Defined.

(** ** Read of the data source *)

Lemma model_eta (model : Tf.RangerPolicyResourceModel) :
  {| Tf.ID := Tf.ID model; Tf.Name := Tf.Name model; Tf.Service := Tf.Service model;
     Tf.Description := Tf.Description model; Tf.IsEnabled := Tf.IsEnabled model;
     Tf.IsAuditEnabled := Tf.IsAuditEnabled model; Tf.PolicyType := Tf.PolicyType model;
     Tf.Resources := Tf.Resources model; Tf.PolicyItems := Tf.PolicyItems model;
     Tf.DenyItems := Tf.DenyItems model |} = model.
Proof. by destruct model. Qed.

(** X6: the data source looks the policy up by id whenever the configured
    id is not null, whatever service and name say, and by service and name
    otherwise; when it ends without error the state is the translation of
    the policy found, every configured field replaced; when it ends with an
    error the state is the one it was handed; the only requests are those of
    the lookup. *)
Theorem data_source_read_outcomes pf client req resp :
  (HasError (Diagnostics_ (DataSource_Read pf client req resp).1) = true →
   State (DataSource_Read pf client req resp).1 = State resp)
  ∧ (HasError (Diagnostics_ (DataSource_Read pf client req resp).1) = false →
     HasError (lookupPolicy pf client (Get_value (Read_Config req))).1.2 = false
     ∧ State (DataSource_Read pf client req resp).1
       = Some (convertPolicyToModel (resources_order pf)
                 (lookupPolicy pf client (Get_value (Read_Config req))).1.1).1)
  ∧ (HasError (Append (Diagnostics_ resp) (Get_diags (Read_Config req))) = false →
     (DataSource_Read pf client req resp).2
     = (lookupPolicy pf client (Get_value (Read_Config req))).2)
  ∧ (HasError (Append (Diagnostics_ resp) (Get_diags (Read_Config req))) = true →
     (DataSource_Read pf client req resp).2 = []).
Proof.
  unfold DataSource_Read.
  destruct (HasError (Diagnostics_ (resp_Append _ resp))) eqn:Hstart; simpl in Hstart.
  { simpl. rewrite Hstart. done. }
  change (if negb (IsNull (Tf.ID (Get_value (Read_Config req)))) then _ else _)
    with (lookupPolicy pf client (Get_value (Read_Config req))).
  destruct (lookupPolicy pf client _) as [[policy diags] sent]. simpl.
  rewrite HasError_Append, Hstart. simpl.
  destruct (HasError diags) eqn:Hdiags.
  { simpl. rewrite HasError_Append, Hdiags, orb_true_r. done. }
  pose proof (convertPolicyToModel_items (resources_order pf) policy) as (_ & _ & Hnone).
  destruct (convertPolicyToModel _ policy) as [model none]. simpl in Hnone. subst none.
  simpl. rewrite HasError_Append, Hstart, Hdiags. simpl.
  rewrite model_eta. unfold State_Set.
  destruct (HasError (State_Set_diags pf model)) eqn:Hset; simpl.
  - rewrite HasError_Append, Hset, orb_true_r. done.
  - rewrite HasError_Append, Hset, orb_false_r, HasError_Append, Hdiags, Hstart. done.
Qed.

Lemma data_source_read_outcomes_witness :
  (DataSource_Read reference_platform (fixed_server (status_response 404))
     {| Read_Config := config_with_id |} {| State := None; Diagnostics_ := [] |}).2
  = [readRequest (fixed_server (status_response 404)) "42"].
Proof.
  rewrite (proj1 (proj2 (proj2 (data_source_read_outcomes reference_platform
                                  (fixed_server (status_response 404))
                                  {| Read_Config := config_with_id |}
                                  {| State := None; Diagnostics_ := [] |})))).
  - reflexivity.
  - reflexivity.
Defined.

(** ** Name lookup, the remaining outcomes *)

(** X7: a name search that the server answers with any status other than
    200, 404 included, fails with the error carrying the status code rather
    than with "not found"; answered 200 with a list, it returns the first
    policy of the list that bears the requested name, also when later ones
    bear it too; it sends exactly one request, the search for that name. *)
Theorem name_lookup_outcomes pf client service name response :
  http_NewRequest_err pf "GET" (URL (nameSearchRequest pf client service name)) = None →
  Do client (nameSearchRequest pf client service name) = inr response →
  (StatusCode response ≠ StatusOK →
   (getPolicyByServiceAndName pf client service name).1
   = (Wire.zero, [unexpectedStatus "Error Reading Ranger Policy" (StatusCode response)]))
  ∧ (∀ policies before policy after,
       StatusCode response = StatusOK →
       DecodePolicies response = inr policies →
       elems policies = before ++ policy :: after →
       Wire.Name policy = name →
       (∀ other, other ∈ before → Wire.Name other ≠ name) →
       (getPolicyByServiceAndName pf client service name).1 = (policy, []))
  ∧ (getPolicyByServiceAndName pf client service name).2
    = [nameSearchRequest pf client service name].
Proof.
  intros Hnew Hdo. unfold getPolicyByServiceAndName, http_NewRequest.
  simpl in Hnew. rewrite Hnew.
  change (Header_Set _ _ (Header_Set _ _ (set_RawQuery _ _)))
    with (nameSearchRequest pf client service name).
  rewrite Hdo.
  destruct (decide (StatusCode response = StatusOK)) as [H200|H200].
  - rewrite bool_decide_eq_false_2 by (intros H; by apply H).
    split; [done|]. split.
    + intros policies before policy after _ -> Hl Hname Hbefore.
      destruct (list_find _ (elems policies)) as [[i found]|] eqn:Hfind; simpl.
      * apply list_find_Some in Hfind as (Hi & Hfound & Hfirst).
        rewrite Hl in Hi, Hfirst.
        destruct (decide (i < length before)%nat) as [Hlt|Hge].
        { rewrite lookup_app_l in Hi by done.
          apply list_elem_of_lookup_2 in Hi. by destruct (Hbefore found Hi). }
        destruct (decide (i = length before)) as [->|Hne].
        { rewrite list_lookup_middle in Hi by done. by injection Hi as ->. }
        destruct (Hfirst (length before) policy); [|lia|done].
        by rewrite list_lookup_middle.
      * apply list_find_None in Hfind. rewrite Forall_forall in Hfind.
        destruct (Hfind policy); [|done]. rewrite Hl.
        apply elem_of_app. right. by left.
    + destruct (DecodePolicies response) as [err|policies]; [done|].
      by destruct (list_find _ (elems policies)) as [[i found]|].
  - rewrite bool_decide_eq_true_2 by done. simpl.
    split; [done|]. split; [|done]. intros policies before policy after H. by destruct H200.
Qed.

(** Two policies named "foo" after one named "foo_v2". *)
Lemma name_lookup_outcomes_witness :
  (getPolicyByServiceAndName reference_platform
     (fixed_server {| StatusCode := 200; DecodePolicy := inl "EOF";
                      DecodePolicies :=
                        inr (Some [named "foo_v2"; named "foo";
                                   Wire.set_ID 8 (named "foo")]) |})
     "hive" "foo").1 = (named "foo", []).
Proof.
  apply (proj1 (proj2 (name_lookup_outcomes reference_platform
                         (fixed_server {| StatusCode := 200; DecodePolicy := inl "EOF";
                                          DecodePolicies :=
                                            inr (Some [named "foo_v2"; named "foo";
                                                       Wire.set_ID 8 (named "foo")]) |})
                         "hive" "foo" _ eq_refl eq_refl))
           (Some [named "foo_v2"; named "foo"; Wire.set_ID 8 (named "foo")])
           [named "foo_v2"] (named "foo") [Wire.set_ID 8 (named "foo")]);
    try reflexivity.
  intros other Hin. apply list_elem_of_singleton in Hin. subst other. discriminate.
Defined.

(** ** From the wire and back to the wire *)

(** A loop of map assignments over entries with distinct keys builds the map
    of those entries. *)
Lemma foldl_insert_list_to_map {A B} (f : A → B) (l : list (string * A)) :
  NoDup l.*1 →
  foldl (λ (m : gmap string B) kv, <[kv.1 := f kv.2]> m) ∅ l
  = list_to_map (prod_map id f <$> l).
Proof.
  induction l as [|[k v] l IH] using rev_ind; [done|].
  rewrite fmap_app. intros Hnd. apply NoDup_app in Hnd as (Hl & Hfresh & _).
  rewrite fmap_app, foldl_snoc, IH by done. simpl.
  rewrite list_to_map_snoc; [done|].
  intros Hin. apply (Hfresh k); [|by left].
  rewrite <- list_fmap_compose in Hin.
  rewrite list_elem_of_fmap in Hin. destruct Hin as ([k' v'] & -> & Hin).
  apply list_elem_of_fmap. by exists (k', v').
Qed.

Lemma foldl_insert_range {A B} (f : A → B) (rng : MapRange A) (m : gmap string A) :
  range_ok rng →
  foldl (λ (acc : gmap string B) kv, <[kv.1 := f kv.2]> acc) ∅ (rng m) = f <$> m.
Proof.
  intros Hrng.
  assert (NoDup (rng m).*1) as Hnd by (rewrite (Hrng m); apply NoDup_fst_map_to_list).
  rewrite foldl_insert_list_to_map by done.
  rewrite list_to_map_fmap. f_equal.
  rewrite (list_to_map_proper _ _ Hnd (Hrng m)). apply list_to_map_to_list.
Qed.

Lemma setResource_resourceModel acc entry :
  setResource acc (resourceModel entry) = <[entry.1 := non_nil_values entry.2]> acc.
Proof.
  unfold setResource, policyResources, resourceModel, non_nil_values. simpl.
  by rewrite map_map, map_id.
Qed.

Lemma resources_back rng rng' policy :
  range_ok rng' →
  Wire.Resources (reverse_roundtrip rng rng' policy)
  = non_nil_values <$> Wire.Resources policy.
Proof.
  intros Hrng. unfold reverse_roundtrip.
  rewrite convertModelToPolicy_Resources, convertPolicyToModel_Resources. simpl.
  rewrite <- (foldl_insert_range non_nil_values rng' _ Hrng).
  change (map resourceModel ?l) with (resourceModel <$> l).
  rewrite foldl_fmap. apply foldl_fun_ext. intros acc entry.
  apply setResource_resourceModel.
Qed.

(** X8: translating a wire policy to the declarative model and back gives
    a wire policy with the same name, service, description, flags, policy
    type and resources (a nil value list becoming an empty one), whatever
    the iteration order; only the id is lost, reset to 0. *)
Theorem wire_roundtrip_keeps_policy_fields rng rng' policy :
  range_ok rng' →
  Wire.ID (reverse_roundtrip rng rng' policy) = 0
  ∧ Wire.Name (reverse_roundtrip rng rng' policy) = Wire.Name policy
  ∧ Wire.Service (reverse_roundtrip rng rng' policy) = Wire.Service policy
  ∧ Wire.Description (reverse_roundtrip rng rng' policy) = Wire.Description policy
  ∧ Wire.IsEnabled (reverse_roundtrip rng rng' policy) = Wire.IsEnabled policy
  ∧ Wire.IsAuditEnabled (reverse_roundtrip rng rng' policy) = Wire.IsAuditEnabled policy
  ∧ Wire.PolicyType (reverse_roundtrip rng rng' policy) = Wire.PolicyType policy
  ∧ Wire.Resources (reverse_roundtrip rng rng' policy)
    = non_nil_values <$> Wire.Resources policy.
Proof.
  intros Hrng. pose proof (resources_back rng rng' policy Hrng) as Hres.
  unfold reverse_roundtrip in *.
  destruct (convertModelToPolicy_scalars rng (convertPolicyToModel rng' policy).1)
    as (-> & -> & -> & -> & -> & -> & ->).
  destruct (convertPolicyToModel_scalars rng' policy)
    as (_ & -> & -> & -> & -> & -> & ->).
  done.
Qed.

Lemma wire_roundtrip_keeps_policy_fields_witness :
  Wire.Resources (reverse_roundtrip (λ _, map_to_list) map_to_list server_policy)
  = non_nil_values <$> Wire.Resources server_policy.
Proof.
  apply (wire_roundtrip_keeps_policy_fields (λ _, map_to_list) map_to_list server_policy).
  intros m. reflexivity.
Defined.

Lemma list_back (l : slice string) :
  (if decide (0 < len (collect StringValue l))%nat
   then collect ValueString (collect StringValue l) else None)
  = nil_if_empty (elems l).
Proof.
  rewrite !collect_map. unfold len. simpl. rewrite map_map, map_id, length_map.
  by destruct (elems l).
Qed.

Lemma allow_allowed (l : list Wire.Access) :
  Forall (λ a, Wire.IsAllowed a = true) l →
  map (λ perm, allow (ValueString perm)) (map (λ a, StringValue (Wire.Type_ a)) l) = l.
Proof.
  induction 1 as [|[ty al] l Ha _ IH]; [done|]. simpl in *. subst al.
  by rewrite IH.
Qed.

Lemma filter_allowed_Forall (l : list Wire.Access) :
  Forall (λ a, Wire.IsAllowed a = true) (filter (λ a, Wire.IsAllowed a = true) l).
Proof. apply Forall_forall. intros a Ha. by apply list_elem_of_filter in Ha as [Ha _]. Qed.

Lemma item_back rng item :
  (convertPolicyItemModel rng (convertPolicyItem item).1).1
  = resent_item item
      (Wire.Conditions (convertPolicyItemModel rng (convertPolicyItem item).1).1).
Proof.
  pose proof (convertPolicyItem_Permissions item) as Hp.
  assert (Tf.Users (convertPolicyItem item).1 = collect StringValue (Wire.Users item))
    as Hu by done.
  assert (Tf.Groups (convertPolicyItem item).1 = collect StringValue (Wire.Groups item))
    as Hg by done.
  assert (Tf.Roles (convertPolicyItem item).1 = collect StringValue (Wire.Roles item))
    as Hr by done.
  assert (Tf.DelegateAdmin (convertPolicyItem item).1 = BoolValue (Wire.DelegateAdmin item))
    as Hd by done.
  generalize dependent (convertPolicyItem item).1. intros itemModel Hp Hu Hg Hr Hd.
  unfold resent_item, convertPolicyItemModel. cbn [fst Wire.Conditions].
  rewrite Hu, Hg, Hr, Hd, Hp, !list_back. simpl ValueBool. f_equal.
  rewrite collect_map. unfold len. simpl elems. rewrite length_map.
  change (λ perm : TString, {| Wire.Type_ := ValueString perm; Wire.IsAllowed := true |})
    with (λ perm, allow (ValueString perm)).
  rewrite allow_allowed by apply filter_allowed_Forall.
  by destruct (filter _ _).
Qed.

(** X9: after a refresh and a new translation a wire rule item keeps its
    users, groups, roles and delegateAdmin, with empty lists sent as nil,
    and keeps of its accesses exactly those with [isAllowed = true], in
    order; allow and deny items stay in their own lists, one for one and in
    order, and a list without items is sent as nil. *)
Theorem wire_roundtrip_items rng rng' policy :
  Forall2 (λ item item', item' = resent_item item (Wire.Conditions item'))
    (elems (Wire.PolicyItems policy))
    (elems (Wire.PolicyItems (reverse_roundtrip rng rng' policy)))
  ∧ Forall2 (λ item item', item' = resent_item item (Wire.Conditions item'))
      (elems (Wire.DenyPolicyItems policy))
      (elems (Wire.DenyPolicyItems (reverse_roundtrip rng rng' policy)))
  ∧ (elems (Wire.PolicyItems policy) = [] →
     Wire.PolicyItems (reverse_roundtrip rng rng' policy) = None)
  ∧ (elems (Wire.DenyPolicyItems policy) = [] →
     Wire.DenyPolicyItems (reverse_roundtrip rng rng' policy) = None).
Proof.
  unfold reverse_roundtrip.
  destruct (convertModelToPolicy_items rng (convertPolicyToModel rng' policy).1)
    as (-> & -> & _).
  destruct (convertPolicyToModel_items rng' policy) as (-> & -> & _).
  assert (∀ (f : nat → MapRange (slice TString)) (l : list Wire.PolicyItem),
            Forall2 (λ item item', item' = resent_item item (Wire.Conditions item'))
              l (imap (λ i a, (convertPolicyItemModel (f i) a).1)
                   (map (λ a, (convertPolicyItem a).1) l))) as Himap.
  { intros f l. revert f. induction l as [|item l IH]; intros f; simpl; [constructor|].
    constructor; [apply item_back | apply (IH (f ∘ S))]. }
  unfold len. simpl. rewrite !length_map.
  split; [|split; [|split]].
  - case_decide as H; [exact (Himap rng _)|].
    destruct (elems (Wire.PolicyItems policy)); [constructor | simpl in H; lia].
  - case_decide as H;
      [exact (Himap (λ i, rng (length (elems (Wire.PolicyItems policy)) + i)%nat) _)|].
    destruct (elems (Wire.DenyPolicyItems policy)); [constructor | simpl in H; lia].
  - intros ->. done.
  - intros ->. done.
Qed.

Lemma wire_roundtrip_items_witness :
  Wire.DenyPolicyItems (reverse_roundtrip (λ _, map_to_list) map_to_list server_policy)
  = None.
Proof.
  apply (wire_roundtrip_items (λ _, map_to_list) map_to_list server_policy).
  reflexivity.
Defined.

(** ** Conditions, the remaining behaviour *)

Lemma setCondition_untouched l m k :
  (∀ c vs, c ∈ l → c !! "type" = Some (any_string k) →
           c !! "values" ≠ Some (any_slice vs)) →
  foldl setCondition m l !! k = m !! k.
Proof.
  revert m. induction l as [|a l IH]; intros m Hl; simpl; [done|].
  rewrite IH by (intros c vs Hc; apply Hl; by right).
  unfold setCondition.
  destruct (a !! "type") as [[| | |t| | |]|] eqn:Ht; try done.
  destruct (a !! "values") as [[| | | | |vs|]|] eqn:Hv; try done.
  destruct (decide (t = k)) as [->|Hne]; [|by rewrite lookup_insert_ne].
  destruct (Hl a vs); [by left | done | done].
Qed.

(** X10: when a condition type comes more than once in a wire item, the
    declarative mapping holds under that type the string values of the last
    entry that has a string type and a list of values; what earlier entries
    of that type said is lost. *)
Theorem repeated_condition_type_last_wins item before c after k vs :
  elems (Wire.Conditions item) = before ++ c :: after →
  c !! "type" = Some (any_string k) →
  c !! "values" = Some (any_slice vs) →
  (∀ c' vs', c' ∈ after → c' !! "type" = Some (any_string k) →
             c' !! "values" ≠ Some (any_slice vs')) →
  Tf.Conditions (convertPolicyItem item).1 !! k
  = Some (Some (map StringValue (strings_of (elems vs)))).
Proof.
  intros Hl Ht Hv Hafter.
  rewrite convertPolicyItem_Conditions, Hl, foldl_app. simpl.
  rewrite setCondition_untouched by exact Hafter.
  unfold setCondition. rewrite Ht, Hv. apply lookup_insert_eq.
Qed.

Lemma repeated_condition_type_last_wins_witness :
  Tf.Conditions (convertPolicyItem repeated_condition_item).1 !! "ip-range"
  = Some (Some [StringValue "192.168.0.1"]).
Proof.
  apply (repeated_condition_type_last_wins repeated_condition_item
           [ {[ "type" := any_string "ip-range";
                "values" := any_slice (Some [any_string "10.0.0.1"]) ]} ]
           {[ "type" := any_string "ip-range";
              "values" := any_slice (Some [any_string "192.168.0.1"]) ]}
           [] "ip-range" (Some [any_string "192.168.0.1"])).
  - reflexivity.
  - vm_compute. reflexivity.
  - vm_compute. reflexivity.
  - intros c' vs' Hin. by apply elem_of_nil in Hin.
Defined.

Lemma convertPolicyItemModel_Conditions_range rng itemModel :
  range_ok rng →
  elems (Wire.Conditions (convertPolicyItemModel rng itemModel).1)
  = map declaredCondition (rng (Tf.Conditions itemModel)).
Proof.
  intros Hrng. rewrite convertPolicyItemModel_Conditions.
  case_decide as Hsize; [done|].
  assert (Tf.Conditions itemModel = ∅) as -> by (apply map_size_empty_inv; lia).
  pose proof (Hrng ∅) as Hperm. rewrite map_to_list_empty in Hperm.
  apply Permutation_nil_r in Hperm. by rewrite Hperm.
Qed.

(** X11: whatever order the map is walked in, the wire item carries
    exactly one condition entry for each declared condition type, of the
    form {type, values} with the values as a list of strings, and no other
    entry; with no declared condition the wire list is nil. *)
Theorem declared_conditions_on_the_wire rng itemModel :
  range_ok rng →
  length (elems (Wire.Conditions (convertPolicyItemModel rng itemModel).1))
    = size (Tf.Conditions itemModel)
  ∧ (∀ k vs, Tf.Conditions itemModel !! k = Some vs →
             declaredCondition (k, vs)
               ∈ elems (Wire.Conditions (convertPolicyItemModel rng itemModel).1))
  ∧ (∀ c, c ∈ elems (Wire.Conditions (convertPolicyItemModel rng itemModel).1) →
          ∃ k vs, Tf.Conditions itemModel !! k = Some vs
                  ∧ c = declaredCondition (k, vs)
                  ∧ c !! "type" = Some (any_string k)
                  ∧ c !! "values"
                    = Some (any_strings (Some (map ValueString (elems vs)))))
  ∧ (size (Tf.Conditions itemModel) = 0%nat →
     Wire.Conditions (convertPolicyItemModel rng itemModel).1 = None).
Proof.
  intros Hrng. rewrite convertPolicyItemModel_Conditions_range by done.
  split; [|split; [|split]].
  - by rewrite length_map, (Hrng _), length_map_to_list.
  - intros k vs Hk. apply list_elem_of_fmap. exists (k, vs). split; [done|].
    rewrite (Hrng _). by apply elem_of_map_to_list.
  - intros c Hc. apply list_elem_of_fmap in Hc as ([k vs] & -> & Hin).
    rewrite (Hrng _) in Hin. apply elem_of_map_to_list in Hin.
    exists k, vs. split; [done|]. split; [done|]. split.
    + unfold declaredCondition. rewrite lookup_insert_ne by done. apply lookup_insert_eq.
    + unfold declaredCondition. apply lookup_insert_eq.
  - intros Hsize. simpl. case_decide; [lia | done].
Qed.

Lemma declared_conditions_on_the_wire_witness :
  length (elems (Wire.Conditions (convertPolicyItemModel map_to_list conditioned_item).1))
  = size (Tf.Conditions conditioned_item).
Proof.
  apply (declared_conditions_on_the_wire map_to_list conditioned_item).
  intros m. reflexivity.
Defined.

(** ** Rule items, declarative to wire *)

Lemma wire_list_elems (vs : slice TString) :
  elems (if decide (0 < len vs)%nat then collect ValueString vs else None)
  = map ValueString (elems vs).
Proof.
  case_decide as H; [by rewrite collect_map|]. by rewrite (len_zero_elems _ H).
Qed.

Lemma convertPolicyItemModel_translates rng declared :
  item_translates declared (convertPolicyItemModel rng declared).1.
Proof.
  pose proof (convertPolicyItemModel_Accesses rng declared) as Hacc.
  repeat split; try exact Hacc; simpl; apply wire_list_elems.
Qed.

Lemma imap_translates (f : nat → MapRange (slice TString)) l :
  Forall2 item_translates l (imap (λ i a, (convertPolicyItemModel (f i) a).1) l).
Proof.
  revert f. induction l as [|declared l IH]; intros f; simpl; [constructor|].
  constructor; [apply convertPolicyItemModel_translates | apply (IH (f ∘ S))].
Qed.

(** X12: the wire policy has one allow item for each declared allow item
    and one deny item for each declared deny item, in the declared order and
    never moved from one list to the other; each carries the declared users,
    groups and roles as plain strings, delegate_admin, and one access for
    each permission in order, every one of them with [isAllowed = true], in
    the deny list as in the allow list. *)
Theorem wire_items_follow_declared_items rng model :
  Forall2 item_translates (elems (Tf.PolicyItems model))
    (elems (Wire.PolicyItems (convertModelToPolicy rng model).1))
  ∧ Forall2 item_translates (elems (Tf.DenyItems model))
      (elems (Wire.DenyPolicyItems (convertModelToPolicy rng model).1))
  ∧ (∀ item access,
       item ∈ elems (Wire.PolicyItems (convertModelToPolicy rng model).1)
       ∨ item ∈ elems (Wire.DenyPolicyItems (convertModelToPolicy rng model).1) →
       access ∈ elems (Wire.Accesses item) →
       Wire.IsAllowed access = true).
Proof.
  assert (Forall2 item_translates (elems (Tf.PolicyItems model))
            (elems (Wire.PolicyItems (convertModelToPolicy rng model).1))
          ∧ Forall2 item_translates (elems (Tf.DenyItems model))
              (elems (Wire.DenyPolicyItems (convertModelToPolicy rng model).1)))
    as [Hallow Hdeny].
  { destruct (convertModelToPolicy_items rng model) as (-> & -> & _). split.
    - case_decide as H; [apply imap_translates|].
      rewrite (len_zero_elems _ H). constructor.
    - case_decide as H; [apply imap_translates|].
      rewrite (len_zero_elems _ H). constructor. }
  split; [done|]. split; [done|].
  assert (∀ declared items item access,
            Forall2 item_translates declared items → item ∈ items →
            access ∈ elems (Wire.Accesses item) → Wire.IsAllowed access = true) as Hall.
  { intros declared items item access HF Hitem Haccess.
    apply list_elem_of_lookup in Hitem as [i Hi].
    destruct (Forall2_lookup_r _ _ _ _ _ HF Hi) as (d & _ & (_ & _ & _ & Hacc & _)).
    rewrite Hacc in Haccess. apply list_elem_of_fmap in Haccess as (perm & -> & _).
    done. }
  intros item access [Hitem|Hitem] Haccess.
  - exact (Hall _ _ item access Hallow Hitem Haccess).
  - exact (Hall _ _ item access Hdeny Hitem Haccess).
Qed.


(** ** Resources, wire to declarative: the declared types *)

Lemma declared_types_from_wire rng policy :
  declared_types (convertPolicyToModel rng policy).1 = (rng (Wire.Resources policy)).*1.
Proof.
  unfold declared_types. rewrite convertPolicyToModel_Resources. simpl.
  rewrite map_map. done.
Qed.

(** X13: the declarative resources read from a wire policy name each key
    of the wire map exactly once, so a refreshed model never declares a
    resource type twice. *)
Theorem refreshed_resource_types_are_distinct rng policy :
  range_ok rng →
  NoDup (declared_types (convertPolicyToModel rng policy).1)
  ∧ (∀ k, k ∈ declared_types (convertPolicyToModel rng policy).1
          ↔ is_Some (Wire.Resources policy !! k))
  ∧ length (elems (Tf.Resources (convertPolicyToModel rng policy).1))
    = size (Wire.Resources policy).
Proof.
  intros Hrng. rewrite declared_types_from_wire, convertPolicyToModel_Resources.
  simpl. rewrite length_map, !(Hrng _), length_map_to_list.
  split; [apply NoDup_fst_map_to_list|]. split; [|done].
  intros k. rewrite list_elem_of_fmap. split.
  - intros ([k' v] & -> & Hin). rewrite (Hrng _) in Hin.
    apply elem_of_map_to_list in Hin. by exists v.
  - intros [v Hv]. exists (k, v). split; [done|]. rewrite (Hrng _).
    by apply elem_of_map_to_list.
Qed.

Lemma refreshed_resource_types_are_distinct_witness :
  NoDup (declared_types (convertPolicyToModel map_to_list server_policy).1).
Proof.
  apply (refreshed_resource_types_are_distinct map_to_list server_policy).
  intros m. reflexivity.
Defined.

(** ** A second round trip *)

(** What one round trip makes of a policy, field by field. *)
Lemma roundtrip_fields rng rng' model :
  range_ok rng' →
  NoDup (declared_types model) →
  Tf.Name (roundtrip rng rng' model) = known (Tf.Name model)
  ∧ Tf.Service (roundtrip rng rng' model) = known (Tf.Service model)
  ∧ Tf.Description (roundtrip rng rng' model) = known (Tf.Description model)
  ∧ Tf.IsEnabled (roundtrip rng rng' model) = known_bool (Tf.IsEnabled model)
  ∧ Tf.IsAuditEnabled (roundtrip rng rng' model) = known_bool (Tf.IsAuditEnabled model)
  ∧ Tf.PolicyType (roundtrip rng rng' model) = known_int64 (Tf.PolicyType model)
  ∧ elems (Tf.Resources (roundtrip rng rng' model))
      ≡ₚ map known_resource (elems (Tf.Resources model))
  ∧ Tf.PolicyItems (roundtrip rng rng' model)
    = Some (map known_item_sans_conditions (elems (Tf.PolicyItems model)))
  ∧ Tf.DenyItems (roundtrip rng rng' model)
    = Some (map known_item_sans_conditions (elems (Tf.DenyItems model)))
  ∧ Tf.ID (roundtrip rng rng' model) = StringValue "0".
Proof.
  intros Hrng Hnd.
  pose proof (resources_roundtrip rng rng' model Hrng Hnd) as Hres.
  unfold roundtrip in *.
  destruct (convertPolicyToModel_scalars rng' (convertModelToPolicy rng model).1)
    as (-> & -> & -> & -> & -> & -> & ->).
  destruct (convertModelToPolicy_scalars rng model)
    as (-> & -> & -> & -> & -> & -> & ->).
  destruct (convertPolicyToModel_items rng' (convertModelToPolicy rng model).1)
    as (-> & -> & _).
  destruct (convertModelToPolicy_items rng model) as (-> & -> & _).
  rewrite (items_roundtrip rng (Tf.PolicyItems model)).
  rewrite (items_roundtrip (λ i, rng (len (Tf.PolicyItems model) + i)%nat)
             (Tf.DenyItems model)).
  repeat split; done.
Qed.

Lemma known_list_idem (vs : slice TString) : known_list (known_list vs) = known_list vs.
Proof. unfold known_list. simpl. by rewrite map_map. Qed.

Lemma known_resource_idem res : known_resource (known_resource res) = known_resource res.
Proof. unfold known_resource. simpl. by rewrite known_list_idem. Qed.

Lemma known_item_idem item :
  known_item_sans_conditions (known_item_sans_conditions item)
  = known_item_sans_conditions item.
Proof. unfold known_item_sans_conditions. simpl. by rewrite !known_list_idem. Qed.

(** X14: a second round trip changes nothing that the first one left: for
    a policy without duplicate resource types, the result of one round trip
    has no duplicate resource types either, and a round trip of it returns
    the same name, service, description, flags, policy type, id and rule
    items, and a permutation of the same resource entries, whatever the
    iteration orders of the two trips. *)
Theorem roundtrip_is_stable rng1 rng1' rng2 rng2' model :
  range_ok rng1' →
  range_ok rng2' →
  NoDup (declared_types model) →
  NoDup (declared_types (roundtrip rng1 rng1' model))
  ∧ Tf.ID (roundtrip rng2 rng2' (roundtrip rng1 rng1' model))
    = Tf.ID (roundtrip rng1 rng1' model)
  ∧ Tf.Name (roundtrip rng2 rng2' (roundtrip rng1 rng1' model))
    = Tf.Name (roundtrip rng1 rng1' model)
  ∧ Tf.Service (roundtrip rng2 rng2' (roundtrip rng1 rng1' model))
    = Tf.Service (roundtrip rng1 rng1' model)
  ∧ Tf.Description (roundtrip rng2 rng2' (roundtrip rng1 rng1' model))
    = Tf.Description (roundtrip rng1 rng1' model)
  ∧ Tf.IsEnabled (roundtrip rng2 rng2' (roundtrip rng1 rng1' model))
    = Tf.IsEnabled (roundtrip rng1 rng1' model)
  ∧ Tf.IsAuditEnabled (roundtrip rng2 rng2' (roundtrip rng1 rng1' model))
    = Tf.IsAuditEnabled (roundtrip rng1 rng1' model)
  ∧ Tf.PolicyType (roundtrip rng2 rng2' (roundtrip rng1 rng1' model))
    = Tf.PolicyType (roundtrip rng1 rng1' model)
  ∧ elems (Tf.Resources (roundtrip rng2 rng2' (roundtrip rng1 rng1' model)))
      ≡ₚ elems (Tf.Resources (roundtrip rng1 rng1' model))
  ∧ Tf.PolicyItems (roundtrip rng2 rng2' (roundtrip rng1 rng1' model))
    = Tf.PolicyItems (roundtrip rng1 rng1' model)
  ∧ Tf.DenyItems (roundtrip rng2 rng2' (roundtrip rng1 rng1' model))
    = Tf.DenyItems (roundtrip rng1 rng1' model).
Proof.
  intros Hrng1 Hrng2 Hnd.
  destruct (roundtrip_fields rng1 rng1' model Hrng1 Hnd)
    as (Hn & Hs & Hd & He & Ha & Ht & Hr & Hp & Hy & Hi).
  assert (NoDup (declared_types (roundtrip rng1 rng1' model))) as Hnd'.
  { unfold declared_types. change (map ?f ?l) with (f <$> l).
    rewrite Hr. change (?f <$> map ?g ?l) with (f <$> (g <$> l)).
    rewrite <- list_fmap_compose. exact Hnd. }
  destruct (roundtrip_fields rng2 rng2' _ Hrng2 Hnd')
    as (-> & -> & -> & -> & -> & -> & Hr' & -> & -> & ->).
  rewrite Hn, Hs, Hd, He, Ha, Ht, Hp, Hy, Hi. simpl.
  rewrite !map_map.
  rewrite !(map_ext _ _ known_item_idem).
  split; [done|]. repeat (split; [done|]). split; [|done].
  rewrite Hr'. change (map ?f ?l) with (f <$> l). rewrite Hr.
  change (?f <$> map ?g ?l) with (f <$> (g <$> l)).
  rewrite <- list_fmap_compose.
  rewrite (list_fmap_ext (known_resource ∘ known_resource) known_resource); [done|].
  intros i res _. apply known_resource_idem.
Qed.

Lemma roundtrip_is_stable_witness :
  Tf.PolicyItems (roundtrip (λ _, map_to_list) map_to_list
                    (roundtrip (λ _, map_to_list) map_to_list conditioned_policy))
  = Tf.PolicyItems (roundtrip (λ _, map_to_list) map_to_list conditioned_policy).
Proof.
  apply (roundtrip_is_stable (λ _, map_to_list) map_to_list (λ _, map_to_list)
           map_to_list conditioned_policy).
  - intros m. reflexivity.
  - intros m. reflexivity.
  - apply NoDup_singleton.
Defined.

(** ** Configuration of the provider *)

Lemma string_length_append (s1 s2 : string) :
  String.length (s1 +:+ s2) = (String.length s1 + String.length s2)%nat.
Proof. induction s1 as [|c s1 IH]; simpl; [done | by rewrite IH]. Qed.

Lemma cut_suffix_unfold (s suffix : string) :
  Provider.cut_suffix s suffix
  = if String.eqb s suffix then Some EmptyString
    else match s with
         | EmptyString => None
         | String c rest => String c <$> Provider.cut_suffix rest suffix
         end.
Proof. by destruct s. Qed.

Lemma cut_suffix_append (s suffix : string) :
  Provider.cut_suffix (s +:+ suffix) suffix = Some s.
Proof.
  induction s as [|c s IH]; rewrite cut_suffix_unfold.
  - change (EmptyString +:+ suffix) with suffix. by rewrite String.eqb_refl.
  - change (String c s +:+ suffix) with (String c (s +:+ suffix)).
    assert (String c (s +:+ suffix) ≠ suffix) as Hne.
    { intros Heq. apply (f_equal String.length) in Heq. simpl in Heq.
      rewrite string_length_append in Heq. lia. }
    apply String.eqb_neq in Hne. rewrite Hne, IH. done.
Qed.

Lemma TrimSuffix_append (s suffix : string) :
  Provider.TrimSuffix (s +:+ suffix) suffix = s.
Proof. unfold Provider.TrimSuffix. by rewrite cut_suffix_append. Qed.

Lemma Provider_elem_of_Append (d : Provider.PathDiagnostic) diags in_ :
  d ∈ Provider.Append diags in_ ↔ d ∈ diags ∨ d ∈ in_.
Proof.
  unfold Provider.Append. revert diags. induction in_ as [|x in_ IH]; intros diags; simpl.
  - split; [by left | intros [H|H]; [done | by apply elem_of_nil in H]].
  - rewrite IH. case_decide as Hx.
    + rewrite elem_of_cons. split.
      * intros [H|H]; [by left | by right; right].
      * intros [H|[->|H]]; [by left | by left | by right].
    + rewrite elem_of_app, list_elem_of_singleton, elem_of_cons. split.
      * intros [[H| ->]|H]; [by left | by right; left | by right; right].
      * intros [H|[->|H]]; [by left; left | by left; right | by right].
Qed.

Lemma Provider_HasError_elem diags d :
  d ∈ diags → is_error d.2 = true → Provider.HasError diags = true.
Proof.
  intros Hd He. unfold Provider.HasError. apply existsb_exists. exists d.
  split; [by apply list_elem_of_In | done].
Qed.


(** X15: when the configuration was read without error and any of
    endpoint, username and password is null, Configure reports an error for
    every one of them that is null, not only the first, and hands no client
    to resources or data sources. *)
Theorem configure_reports_every_missing_attribute http_Client_Do base64 req resp :
  Provider.HasError
    (Provider.Append (Provider.Diagnostics resp) (Provider.Config_diags req)) = false →
  IsNull (Provider.Endpoint (Provider.Config_value req)) = true
  ∨ IsNull (Provider.Username (Provider.Config_value req)) = true
  ∨ IsNull (Provider.Password (Provider.Config_value req)) = true →
  (IsNull (Provider.Endpoint (Provider.Config_value req)) = true →
   Provider.missingEndpoint
     ∈ Provider.Diagnostics (Provider.Configure http_Client_Do base64 req resp))
  ∧ (IsNull (Provider.Username (Provider.Config_value req)) = true →
     Provider.missingUsername
       ∈ Provider.Diagnostics (Provider.Configure http_Client_Do base64 req resp))
  ∧ (IsNull (Provider.Password (Provider.Config_value req)) = true →
     Provider.missingPassword
       ∈ Provider.Diagnostics (Provider.Configure http_Client_Do base64 req resp))
  ∧ Provider.HasError
      (Provider.Diagnostics (Provider.Configure http_Client_Do base64 req resp)) = true
  ∧ Provider.ResourceData (Provider.Configure http_Client_Do base64 req resp)
    = Provider.ResourceData resp
  ∧ Provider.DataSourceData (Provider.Configure http_Client_Do base64 req resp)
    = Provider.DataSourceData resp.
Proof.
  intros Hstart Hmissing. unfold Provider.Configure. rewrite Hstart.
  set (d0 := Provider.Append (Provider.Diagnostics resp) (Provider.Config_diags req)) in *.
  set (d1 := if IsNull (Provider.Endpoint _) then _ else d0).
  set (d2 := if IsNull (Provider.Username _) then _ else d1).
  set (d3 := if IsNull (Provider.Password _) then _ else d2).
  assert (∀ d, d ∈ d1 → d ∈ d2) as H12.
  { intros d Hd. unfold d2. destruct (IsNull (Provider.Username _)); [|done].
    apply Provider_elem_of_Append. by left. }
  assert (∀ d, d ∈ d2 → d ∈ d3) as H23.
  { intros d Hd. unfold d3. destruct (IsNull (Provider.Password _)); [|done].
    apply Provider_elem_of_Append. by left. }
  assert (IsNull (Provider.Endpoint (Provider.Config_value req)) = true →
          Provider.missingEndpoint ∈ d3) as He.
  { intros H. apply H23, H12. unfold d1. rewrite H.
    apply Provider_elem_of_Append. right. by left. }
  assert (IsNull (Provider.Username (Provider.Config_value req)) = true →
          Provider.missingUsername ∈ d3) as Hu.
  { intros H. apply H23. unfold d2. rewrite H.
    apply Provider_elem_of_Append. right. by left. }
  assert (IsNull (Provider.Password (Provider.Config_value req)) = true →
          Provider.missingPassword ∈ d3) as Hp.
  { intros H. unfold d3. rewrite H. apply Provider_elem_of_Append. right. by left. }
  assert (Provider.HasError d3 = true) as Herr.
  { destruct Hmissing as [H|[H|H]];
      [apply (Provider_HasError_elem _ _ (He H))
      |apply (Provider_HasError_elem _ _ (Hu H))
      |apply (Provider_HasError_elem _ _ (Hp H))]; done. }
  rewrite Herr. simpl. done.
Qed.

Lemma configure_reports_every_missing_attribute_witness :
  Provider.missingPassword
    ∈ Provider.Diagnostics
        (Provider.Configure silent_network (λ s, s) passwordless_provider_config
           empty_provider_response)
  ∧ Provider.ResourceData
      (Provider.Configure silent_network (λ s, s) passwordless_provider_config
         empty_provider_response) = ProviderData_nil.
Proof.
  destruct (configure_reports_every_missing_attribute silent_network (λ s, s)
              passwordless_provider_config empty_provider_response)
    as (_ & _ & Hp & _ & Hr & _).
  - reflexivity.
  - right. right. reflexivity.
  - split; [apply Hp; reflexivity | exact Hr].
Defined.

(** X16: when the configuration was read without error and endpoint,
    username and password are not null, Configure adds no diagnostic and
    hands one and the same client to resources and to data sources: its
    endpoint is the configured one without one trailing slash, its
    authorization header is "Basic " followed by the encoding of
    "username:password", and certificate checking is switched off exactly
    when insecure is a known true; the Configure of the resource and of the
    data source takes that client without a diagnostic. *)
Theorem configure_builds_the_client http_Client_Do base64 req resp :
  Provider.HasError
    (Provider.Append (Provider.Diagnostics resp) (Provider.Config_diags req)) = false →
  IsNull (Provider.Endpoint (Provider.Config_value req)) = false →
  IsNull (Provider.Username (Provider.Config_value req)) = false →
  IsNull (Provider.Password (Provider.Config_value req)) = false →
  ∃ c,
    Provider.ResourceData (Provider.Configure http_Client_Do base64 req resp)
    = ProviderData_client c
    ∧ Provider.DataSourceData (Provider.Configure http_Client_Do base64 req resp)
      = ProviderData_client c
    ∧ Provider.Diagnostics (Provider.Configure http_Client_Do base64 req resp)
      = Provider.Append (Provider.Diagnostics resp) (Provider.Config_diags req)
    ∧ Endpoint c
      = Provider.TrimSuffix
          (ValueString (Provider.Endpoint (Provider.Config_value req))) "/"
    ∧ (∀ e, ValueString (Provider.Endpoint (Provider.Config_value req)) = e +:+ "/" →
            Endpoint c = e)
    ∧ AuthHeader c
      = "Basic " +:+ base64 (ValueString (Provider.Username (Provider.Config_value req))
                               +:+ ":"
                               +:+ ValueString
                                     (Provider.Password (Provider.Config_value req)))
    ∧ Do c
      = http_Client_Do
          {| Provider.TLSClientConfig :=
               match Provider.Insecure (Provider.Config_value req) with
               | BoolValue true => Some {| Provider.InsecureSkipVerify := true |}
               | _ => None
               end |}
    ∧ (∀ r resp',
         Configure r
           {| Configure_ProviderData :=
                Provider.ResourceData
                  (Provider.Configure http_Client_Do base64 req resp) |} resp'
         = ({| client := Some c |}, resp')).
Proof.
  intros Hstart He Hu Hp. unfold Provider.Configure.
  rewrite Hstart, He, Hu, Hp, Hstart. eexists. simpl.
  split; [reflexivity|]. split; [reflexivity|]. split; [reflexivity|].
  split; [reflexivity|]. split; [|split; [reflexivity|split; [|done]]].
  - intros e ->. apply TrimSuffix_append.
  - by destruct (Provider.Insecure (Provider.Config_value req)) as [| |[]].
Qed.

Lemma configure_builds_the_client_witness :
  ∃ c,
    Provider.ResourceData
      (Provider.Configure silent_network (λ s, s) sample_provider_config
         empty_provider_response) = ProviderData_client c
    ∧ Endpoint c = "http://ranger.example.com:6080".
Proof.
  destruct (configure_builds_the_client silent_network (λ s, s) sample_provider_config
              empty_provider_response)
    as (c & Hr & _ & _ & _ & Hslash & _); try reflexivity.
  exists c. split; [exact Hr|]. apply Hslash. reflexivity.
Defined.

(** ** A missing id *)

(** X17: the null id is guarded by Read and not by Delete: with a null id
    in the state Read sends nothing, while Delete still sends its DELETE, to
    the URL of the policy collection with an empty id. *)
Theorem null_id_guarded_by_read_not_by_delete pf client data resp :
  IsNull (Tf.ID (Get_value data)) = true →
  HasError (Append (Diagnostics_ resp) (Get_diags data)) = false →
  (Read pf client {| Read_State := data |} resp).2 = []
  ∧ (http_NewRequest_err pf "DELETE" (URL (deleteRequest client "")) = None →
     (Delete pf client {| Delete_State := data |} resp).2 = [deleteRequest client ""]).
Proof.
  intros Hid Hstart. split.
  - unfold Read. simpl. by rewrite Hstart, Hid.
  - intros Hnew. unfold Delete, http_NewRequest. simpl in Hnew |- *.
    destruct (Tf.ID (Get_value data)); try discriminate. simpl.
    rewrite Hstart, Hnew.
    change (Header_Set _ _ _) with (deleteRequest client "").
    destruct (Do client _) as [err|response]; [done|].
    by destruct (_ && _).
Qed.

Lemma null_id_guarded_by_read_not_by_delete_witness :
  (Read reference_platform (fixed_server (status_response 404))
     {| Read_State :=
          {| Get_value := Tf.set_ID StringNull conditioned_policy; Get_diags := [] |} |}
     prior_response).2 = []
  ∧ (Delete reference_platform (fixed_server (status_response 404))
       {| Delete_State :=
            {| Get_value := Tf.set_ID StringNull conditioned_policy; Get_diags := [] |} |}
       prior_response).2
    = [deleteRequest (fixed_server (status_response 404)) ""].
Proof.
  destruct (null_id_guarded_by_read_not_by_delete reference_platform
              (fixed_server (status_response 404))
              {| Get_value := Tf.set_ID StringNull conditioned_policy; Get_diags := [] |}
              prior_response) as [Hread Hdelete]; try reflexivity.
  split; [exact Hread | apply Hdelete; reflexivity].
Defined.

(** ** Read after Create *)

(** X18: the state a Create leaves when it ends without error has an id
    that is not null, the decimal text of the id the server issued; a Read
    of that state therefore does not take the resource for absent: once its
    request can be built it sends exactly the GET for that id. *)
Theorem read_after_create pf client req resp :
  HasError (Diagnostics_ (Create pf client req resp).1) = false →
  ∃ state response createdPolicy,
    State (Create pf client req resp).1 = Some state
    ∧ (∃ policyJSON, Do client (createRequest client policyJSON) = inr response)
    ∧ DecodePolicy response = inr createdPolicy
    ∧ Tf.ID state = StringValue (pretty (Wire.ID createdPolicy))
    ∧ IsNull (Tf.ID state) = false
    ∧ (∀ resp',
         HasError (Diagnostics_ resp') = false →
         http_NewRequest_err pf "GET"
           (URL (readRequest client (pretty (Wire.ID createdPolicy)))) = None →
         (Read pf client {| Read_State := {| Get_value := state; Get_diags := [] |} |}
            resp').2
         = [readRequest client (pretty (Wire.ID createdPolicy))]).
Proof.
  intros Hok.
  destruct (Create_cases pf client req resp) as (_ & Hcases & _).
  destruct (Hcases Hok)
    as (policyJSON & response & createdPolicy & _ & _ & Hdo & _ & Hdecode & Hstate).
  exists (Tf.set_ID (StringValue (pretty (Wire.ID createdPolicy)))
            (Get_value (Create_Plan req))), response, createdPolicy.
  split; [exact Hstate|]. split; [by exists policyJSON|]. split; [exact Hdecode|].
  split; [done|]. split; [done|].
  intros resp' Hresp' Hnew. unfold Read, http_NewRequest. simpl in Hnew |- *.
  rewrite Hresp', Hnew.
  change (Header_Set _ _ (Header_Set _ _ _))
    with (readRequest client (pretty (Wire.ID createdPolicy))).
  destruct (Do client (readRequest _ _)) as [err|response']; [done|].
  destruct (bool_decide (StatusCode response' = StatusNotFound)); [done|].
  destruct (bool_decide (StatusCode response' ≠ StatusOK)); [done|].
  destruct (DecodePolicy response') as [err|policy]; [done|].
  destruct (convertPolicyToModel _ policy) as [model diags].
  unfold State_Set.
  repeat match goal with
         | |- context [if ?b then _ else _] => destruct b
         end; done.
Qed.

Lemma read_after_create_witness :
  ∃ state,
    State (Create reference_platform (fixed_server created_response)
             {| Create_Plan := {| Get_value := conditioned_policy; Get_diags := [] |} |}
             {| State := None; Diagnostics_ := [] |}).1 = Some state
    ∧ IsNull (Tf.ID state) = false.
Proof.
  destruct (read_after_create reference_platform (fixed_server created_response)
              {| Create_Plan := {| Get_value := conditioned_policy; Get_diags := [] |} |}
              {| State := None; Diagnostics_ := [] |})
    as (state & response & createdPolicy & Hstate & _ & _ & _ & Hid & _).
  - reflexivity.
  - exists state. split; [exact Hstate | exact Hid].
Defined.
